(** * pdf_sig: geometry and controller layer

    A shallow embedding of [pdf_sig/layout.py], [pdf_sig/controllers.py] and
    [pdf_sig/operations.py], with the properties their specification states.

    Numbers.  The Python code computes on floats (IEEE doubles); the
    specification states its laws over exact arithmetic.  The geometry is
    therefore embedded twice.  The modules [Layout], [SignatureController]
    and [Gui] compute on rationals ([Q]), which contain every finite
    double, with exact operations: this is the code read over exact
    arithmetic, and equality of coordinates is [Qeq] ([==]).  The modules
    [FloatLayout] and [FloatSignatureController] are the same code over
    binary64 floats, with the rounding of every operation: this is the code
    as it runs.  A statement of exact equality or containment proved on the
    first reading is a statement over exact arithmetic, and says so: the
    running code can miss it by the rounding of its operations.  Where the
    two readings part on an ordinary input, the input is evaluated in
    doubles.  Python integers are [Z]. *)

From Stdlib Require Import QArith Qminmax Qfield Lqa ZArith Lia List String Bool.
From Stdlib Require Import DecimalString.
From Stdlib Require Floats Uint63.
Import ListNotations.
Import PrimFloat.

Set Warnings "-inexact-float".

Local Open Scope string_scope.
Local Open Scope Q_scope.

(** ** Python primitives *)

(** [a < b] on numbers, as a boolean. *)
Definition Qltb (a b : Q) : bool :=
  match a ?= b with
  | Lt => true
  | _ => false
  end.

(** The builtin [max(a, b)]: the first argument unless the second is
    strictly larger. *)
Definition py_max (a b : Q) : Q := if Qltb a b then b else a.

(** The builtin [min(a, b)]: the first argument unless the second is
    strictly smaller. *)
Definition py_min (a b : Q) : Q := if Qltb b a then b else a.

(** [str(n)] for an integer. *)
Definition py_str_int (n : Z) : string := NilZero.string_of_int (Z.to_int n).

(** Exceptions: a class, the message, and the [__cause__] set by
    [raise ... from exc]. *)
Inductive exn_class : Type :=
| ZeroDivisionError
| IndexError
| ValueError
| RuntimeError
| PDFOperationError          (* class PDFOperationError(RuntimeError) *)
| OtherError (name : string).

Inductive exn : Type :=
| Exn (cls : exn_class) (msg : string)
| ExnFrom (cls : exn_class) (msg : string) (cause : exn).

Definition exn_cls (e : exn) : exn_class :=
  match e with Exn c _ | ExnFrom c _ _ => c end.
Definition exn_msg (e : exn) : string :=
  match e with Exn _ m | ExnFrom _ m _ => m end.
Definition exn_cause (e : exn) : option exn :=
  match e with Exn _ _ => None | ExnFrom _ _ c => Some c end.

(** [isinstance(e, RuntimeError)], what [except RuntimeError] tests. *)
Definition is_RuntimeError (e : exn) : bool :=
  match exn_cls e with
  | RuntimeError | PDFOperationError => true
  | _ => false
  end.

(** [isinstance(e, IndexError)], what [except IndexError] tests. *)
Definition is_IndexError (e : exn) : bool :=
  match exn_cls e with
  | IndexError => true
  | _ => false
  end.

(** The outcome of a call that may raise. *)
Inductive result (A : Type) : Type :=
| Ok (a : A)
| Raise (e : exn).
Arguments Ok {A} a.
Arguments Raise {A} e.

(** ** fitz.Rect

    The rectangle class of PyMuPDF, which the code imports and which is not
    part of the repository, as far as the code uses it and as the library
    documents it: four coordinates, stored as given and assignable one by
    one; the properties [width] and [height]; the truth value. *)

Record Rect : Type := mkRect { x0 : Q; y0 : Q; x1 : Q; y1 : Q }.

Definition set_x0 (r : Rect) (v : Q) : Rect := mkRect v (y0 r) (x1 r) (y1 r).
Definition set_y0 (r : Rect) (v : Q) : Rect := mkRect (x0 r) v (x1 r) (y1 r).
Definition set_x1 (r : Rect) (v : Q) : Rect := mkRect (x0 r) (y0 r) v (y1 r).
Definition set_y1 (r : Rect) (v : Q) : Rect := mkRect (x0 r) (y0 r) (x1 r) v.

(** [Rect.width] is [max(0, x1 - x0)], [Rect.height] is [max(0, y1 - y0)]. *)
Definition width (r : Rect) : Q := py_max 0 (x1 r - x0 r).
Definition height (r : Rect) : Q := py_max 0 (y1 r - y0 r).

(** [bool(rect)]: false exactly when all four coordinates are zero. *)
Definition rect_truthy (r : Rect) : bool :=
  negb (Qeq_bool (x0 r) 0 && Qeq_bool (y0 r) 0
        && Qeq_bool (x1 r) 0 && Qeq_bool (y1 r) 0).

(** Coordinate-wise equality of rectangles. *)
Definition rect_eq (r s : Rect) : Prop :=
  x0 r == x0 s /\ y0 r == y0 s /\ x1 r == x1 s /\ y1 r == y1 s.

(** [r] lies within [b]. *)
Definition within (r b : Rect) : Prop :=
  x0 b <= x0 r /\ y0 b <= y0 r /\ x1 r <= x1 b /\ y1 r <= y1 b.

(** ** pdf_sig/layout.py *)

Module Layout.

Definition clamp_rect (rect bounds : Rect) : Rect :=
  let clamped := rect in
  let dx := py_max 0 (x1 clamped - x1 bounds) in
  let dy := py_max 0 (y1 clamped - y1 bounds) in
  let clamped := set_x0 clamped (x0 clamped - dx) in
  let clamped := set_x1 clamped (x1 clamped - dx) in
  let clamped := set_y0 clamped (y0 clamped - dy) in
  let clamped := set_y1 clamped (y1 clamped - dy) in
  let clamped :=
    if Qltb (x0 clamped) (x0 bounds)
    then
      let c := set_x1 clamped (x1 clamped + (x0 bounds - x0 clamped)) in
      set_x0 c (x0 bounds)
    else clamped in
  let clamped :=
    if Qltb (y0 clamped) (y0 bounds)
    then
      let c := set_y1 clamped (y1 clamped + (y0 bounds - y0 clamped)) in
      set_y0 c (y0 bounds)
    else clamped in
  clamped.

Definition canvas_to_pdf (x y : Q) (page_rect : Rect) (page_scale : Q * Q)
  : Q * Q :=
  (x * fst page_scale + x0 page_rect, y * snd page_scale + y0 page_rect).

(** Float division raises [ZeroDivisionError] on a zero divisor. *)
Definition py_div (a b : Q) : result Q :=
  if Qeq_bool b 0
  then Raise (Exn ZeroDivisionError "float division by zero")
  else Ok (a / b).

Definition pdf_rect_to_canvas_rect
  (rect page_rect : Rect) (page_scale : Q * Q) : result (Q * Q * Q * Q) :=
  match py_div (x0 rect - x0 page_rect) (fst page_scale) with
  | Raise e => Raise e
  | Ok cx0 =>
    match py_div (y0 rect - y0 page_rect) (snd page_scale) with
    | Raise e => Raise e
    | Ok cy0 =>
      match py_div (x1 rect - x0 page_rect) (fst page_scale) with
      | Raise e => Raise e
      | Ok cx1 =>
        match py_div (y1 rect - y0 page_rect) (snd page_scale) with
        | Raise e => Raise e
        | Ok cy1 => Ok (cx0, cy0, cx1, cy1)
        end
      end
    end
  end.

(** [image_size[1] / image_size[0] if image_size[0] else 1.0] *)
Definition aspect_of (image_size : Z * Z) : Q :=
  if Z.eqb (fst image_size) 0
  then 1
  else inject_Z (snd image_size) / inject_Z (fst image_size).

Definition new_signature_rect
  (canvas_x canvas_y : Q) (page_rect : Rect) (page_scale : Q * Q)
  (image_size : Z * Z) (max_width_points : Q) : Rect :=
  let width := py_max 10 (py_min max_width_points (width page_rect)) in
  let aspect := aspect_of image_size in
  let height := width * aspect in
  let '(x_pdf, y_pdf) := canvas_to_pdf canvas_x canvas_y page_rect page_scale in
  let rect := mkRect x_pdf y_pdf (x_pdf + width) (y_pdf + height) in
  clamp_rect rect page_rect.

End Layout.

(** ** pdf_sig/controllers.py: DocumentController *)

Module DocumentController.

(** A document as the controller sees it: where it came from and [len(doc)],
    its page count.  [doc.close()] and [doc.load_page(i)] do not touch the
    controller. *)
Record Document : Type := mkDocument { doc_source : string; doc_len : nat }.

(** The controller's fields; [_open_pdf] is the injected opener. *)
Record t : Type := mk {
  _open_pdf : string -> result Document;
  doc : option Document;
  current_file : option string;
  page_index : Z
}.

Definition init (pdf_opener : string -> result Document) : t :=
  mk pdf_opener None None 0%Z.

Definition set_page_index (c : t) (i : Z) : t :=
  mk (_open_pdf c) (doc c) (current_file c) i.

(** The truth value of [self.doc]: [None] is false, and so is a document
    object of length zero (a class with [__len__] and no [__bool__]). *)
Definition doc_truthy (c : t) : bool :=
  match doc c with
  | Some d => negb (Nat.eqb (doc_len d) 0)
  | None => false
  end.

(** [len(self.doc) if self.doc else 0] *)
Definition page_count (c : t) : Z :=
  match doc c with
  | Some d => if doc_truthy c then Z.of_nat (doc_len d) else 0%Z
  | None => 0%Z
  end.

Definition open (c : t) (path : string) : t * result Document :=
  match _open_pdf c path with
  | Raise e => (c, Raise e)
  | Ok d => (mk (_open_pdf c) (Some d) (Some path) 0%Z, Ok d)
  end.

Definition reload (c : t) (path : string) : t * result (option Document) :=
  match open c path with
  | (c', Ok d) => (c', Ok (Some d))
  | (c', Raise e) =>
    if is_RuntimeError e then (c', Ok None) else (c', Raise e)
  end.

Definition close (c : t) : t :=
  mk (_open_pdf c) None None 0%Z.

Definition next_page (c : t) : t :=
  if doc_truthy c && (page_index c <? page_count c - 1)%Z
  then set_page_index c (page_index c + 1)%Z
  else c.

Definition prev_page (c : t) : t :=
  if doc_truthy c && (0 <? page_index c)%Z
  then set_page_index c (page_index c - 1)%Z
  else c.

Definition clamp_page_index (c : t) : t :=
  if negb (doc_truthy c)
  then set_page_index c 0%Z
  else set_page_index c (Z.min (page_index c) (page_count c - 1))%Z.

(** [load_page]; [doc.load_page] of the document is the parameter
    [doc_load_page]. *)
Definition load_page {Page : Type}
  (doc_load_page : Document -> Z -> result Page) (c : t)
  : result (option Page) :=
  match doc c with
  | Some d =>
    if negb (doc_truthy c)
    then Ok None
    else
      match doc_load_page d (page_index c) with
      | Raise e => Raise e
      | Ok page => Ok (Some page)
      end
  | None => Ok None
  end.

(** The operations that change the controller, as one step function. *)
Inductive op : Type :=
| Open (path : string)
| Reload (path : string)
| Close
| NextPage
| PrevPage
| ClampPageIndex.

Definition run (c : t) (o : op) : t :=
  match o with
  | Open path => fst (open c path)
  | Reload path => fst (reload c path)
  | Close => close c
  | NextPage => next_page c
  | PrevPage => prev_page c
  | ClampPageIndex => clamp_page_index c
  end.

(** A sequence of operations, first to last. *)
Definition run_all (c : t) (ops : list op) : t := fold_left run ops c.

(** The page index invariant: inside the document when the controller holds
    one (by its own test [self.doc]), zero otherwise. *)
Definition page_index_ok (c : t) : Prop :=
  if doc_truthy c
  then (0 <= page_index c < page_count c)%Z
  else page_index c = 0%Z.

(** The openers of [tests/pdf_sig/test_controllers.py]: one that opens
    every path as a two-page [DummyDoc], and [bad_opener], which fails. *)
Definition two_page_opener (path : string) : result Document :=
  Ok (mkDocument path 2).

Definition bad_opener (path : string) : result Document :=
  Raise (Exn RuntimeError "fail").

(** An opener that opens every path as a document without pages. *)
Definition zero_page_opener (path : string) : result Document :=
  Ok (mkDocument path 0).

End DocumentController.

(** ** pdf_sig/controllers.py: SignatureController *)

Module SignatureController.

Record t : Type := mk {
  max_width_points : Q;
  image_path : option string;
  rect : option Rect;
  page_index : option Z
}.

(** [DEFAULT_MAX_SIGNATURE_WIDTH] of [config.py]. *)
Definition DEFAULT_MAX_SIGNATURE_WIDTH : Q := 200.

Definition init (max_width_points : Q) : t :=
  mk max_width_points None None None.

Definition reset (s : t) : t :=
  mk (max_width_points s) None None None.

Definition set_image (s : t) (image_path : string) : t :=
  mk (max_width_points s) (Some image_path) None None.

Definition set_rect (s : t) (r : Rect) : t :=
  mk (max_width_points s) (image_path s) (Some r) (page_index s).

Definition place_on_page
  (s : t) (canvas_x canvas_y : Q) (page_index : Z) (page_rect : Rect)
  (page_scale : Q * Q) (image_size : Z * Z) : t * Rect :=
  let rect :=
    Layout.new_signature_rect canvas_x canvas_y page_rect page_scale
      image_size (max_width_points s) in
  (mk (max_width_points s) (image_path s) (Some rect) (Some page_index), rect).

(** The value [self.rect] when it passes the guard [if not self.rect]: it
    is not [None] and not a rectangle that is false. *)
Definition guarded_rect (s : t) : option Rect :=
  match rect s with
  | Some r => if rect_truthy r then Some r else None
  | None => None
  end.

Definition move_to
  (s : t) (canvas_x canvas_y : Q) (page_rect : Rect) (page_scale : Q * Q)
  : t * option Rect :=
  match guarded_rect s with
  | None => (s, None)
  | Some self_rect =>
    let width := width self_rect in
    let height := height self_rect in
    let x_pdf := canvas_x * fst page_scale + x0 page_rect in
    let y_pdf := canvas_y * snd page_scale + y0 page_rect in
    let rect := mkRect x_pdf y_pdf (x_pdf + width) (y_pdf + height) in
    let new_rect := Layout.clamp_rect rect page_rect in
    (set_rect s new_rect, Some new_rect)
  end.

(** The [if handle == ... elif ...] chain of [resize]. *)
Definition resize_edge
  (handle : string) (pdf_x pdf_y min_width min_height : Q) (rect : Rect)
  : Rect :=
  if String.eqb handle "n" then set_y0 rect (py_min pdf_y (y1 rect - min_height))
  else if String.eqb handle "s" then set_y1 rect (py_max pdf_y (y0 rect + min_height))
  else if String.eqb handle "w" then set_x0 rect (py_min pdf_x (x1 rect - min_width))
  else if String.eqb handle "e" then set_x1 rect (py_max pdf_x (x0 rect + min_width))
  else rect.

Definition resize
  (s : t) (handle : string) (pdf_x pdf_y : Q) (page_rect : Rect)
  (min_width min_height : Q) : t * option Rect :=
  match guarded_rect s with
  | None => (s, None)
  | Some self_rect =>
    let rect := resize_edge handle pdf_x pdf_y min_width min_height self_rect in
    let new_rect := Layout.clamp_rect rect page_rect in
    (set_rect s new_rect, Some new_rect)
  end.

Definition point_in_signature
  (s : t) (canvas_x canvas_y : Q) (page_rect : Rect) (page_scale : Q * Q)
  : result bool :=
  match guarded_rect s with
  | None => Ok false
  | Some self_rect =>
    match Layout.pdf_rect_to_canvas_rect self_rect page_rect page_scale with
    | Raise e => Raise e
    | Ok (cx0, cy0, cx1, cy1) =>
      Ok ((Qle_bool cx0 canvas_x && Qle_bool canvas_x cx1)
          && (Qle_bool cy0 canvas_y && Qle_bool canvas_y cy1))
    end
  end.

(** The placement states of the specification, read off the fields. *)
Inductive phase : Type := Unset | ImageLoaded | Placed.

Definition phase_of (s : t) : phase :=
  match rect s, image_path s with
  | Some _, _ => Placed
  | None, Some _ => ImageLoaded
  | None, None => Unset
  end.

End SignatureController.

(** ** pdf_sig/operations.py *)

Module Operations.

(** [DEFAULT_INSERT_RECT] of [config.py]. *)
Definition DEFAULT_INSERT_RECT : Rect := mkRect 36 36 300 300.

(** The document collaborator, as [insert_image] uses it: [len(doc)],
    [doc.load_page(i)], which hands out a page of the document or raises,
    and [page.insert_image(rect, filename=..., keep_proportion=...,
    overlay=...)], which changes the document the page belongs to and may
    raise. *)
Class PdfDocument (Doc Page : Type) : Type := {
  doc_len : Doc -> Z;
  doc_load_page : Doc -> Z -> result Page;
  page_insert_image :
    Doc -> Page -> Rect -> string -> bool -> bool -> Doc * option exn
}.

Section InsertImage.

Context {Doc Page : Type} `{PdfDocument Doc Page}.

(** [image_path.exists()], a query of the file system. *)
Variable path_exists : string -> bool.

(** [rect or DEFAULT_INSERT_RECT] *)
Definition rect_or_default (rect : option Rect) : Rect :=
  match rect with
  | Some r => if rect_truthy r then r else DEFAULT_INSERT_RECT
  | None => DEFAULT_INSERT_RECT
  end.

Definition insert_image
  (doc : Doc) (image_path : string) (page_index : Z) (rect : option Rect)
  : Doc * result Rect :=
  if negb (path_exists image_path)
  then
    (doc, Raise (Exn PDFOperationError
                   ("Image path " ++ image_path ++ " does not exist.")))
  else
    match doc_load_page doc page_index with
    | Raise exc =>
      if is_IndexError exc
      then
        (doc, Raise (ExnFrom PDFOperationError
                       ("Page " ++ py_str_int page_index
                        ++ " is out of range for document with "
                        ++ py_str_int (doc_len doc) ++ " page(s).")
                       exc))
      else (doc, Raise exc)
    | Ok page =>
      let target_rect := rect_or_default rect in
      match page_insert_image doc page target_rect image_path true true with
      | (doc', Some e) => (doc', Raise e)
      | (doc', None) => (doc', Ok target_rect)
      end
    end.

End InsertImage.

(** The document doubles of [tests/pdf_sig/test_operations.py]: a
    [DummyDoc] holds a Python list of [RecordingPage]s, each the list of the
    [insert_image] calls it received; [load_page] indexes the list. *)
Record call : Type := mkCall {
  call_rect : Rect;
  call_filename : string;
  call_keep_proportion : bool;
  call_overlay : bool
}.

Definition RecordingPage : Type := list call.
Definition DummyDoc : Type := list RecordingPage.

(** [self._pages[index]]: negative indices count from the end, anything
    outside the list is an [IndexError].  The page is handed out by its
    position, since it stays a part of the document. *)
Definition list_index (d : DummyDoc) (index : Z) : result nat :=
  let n := Z.of_nat (List.length d) in
  let i := if (index <? 0)%Z then (index + n)%Z else index in
  if ((0 <=? i) && (i <? n))%Z
  then Ok (Z.to_nat i)
  else Raise (Exn IndexError "list index out of range").

Fixpoint record_call (d : DummyDoc) (pos : nat) (c : call) : DummyDoc :=
  match d, pos with
  | [], _ => []
  | p :: rest, O => (p ++ [c])%list :: rest
  | p :: rest, S k => p :: record_call rest k c
  end.

#[export] Instance DummyDoc_PdfDocument : PdfDocument DummyDoc nat := {
  doc_len d := Z.of_nat (List.length d);
  doc_load_page := list_index;
  page_insert_image d pos rect filename keep_proportion overlay :=
    (record_call d pos (mkCall rect filename keep_proportion overlay), None)
}.

(** [OutOfRangeDoc]: a [DummyDoc] whose [load_page] always raises. *)
Record OutOfRangeDoc : Type := mkOutOfRangeDoc { oor_pages : DummyDoc }.

#[export] Instance OutOfRangeDoc_PdfDocument : PdfDocument OutOfRangeDoc nat := {
  doc_len d := Z.of_nat (List.length (oor_pages d));
  doc_load_page _ _ := Raise (Exn IndexError "page out of range");
  page_insert_image d pos rect filename keep_proportion overlay :=
    (mkOutOfRangeDoc
       (record_call (oor_pages d) pos
          (mkCall rect filename keep_proportion overlay)), None)
}.

(** What the claim about out-of-range indices takes from the collaborator:
    [load_page] answers an index at or beyond the page count with an
    [IndexError]. *)
Definition load_page_raises_IndexError
  {Doc Page : Type} `{PdfDocument Doc Page} (doc : Doc) : Prop :=
  forall i : Z, (doc_len doc <= i)%Z ->
    exists e, doc_load_page doc i = Raise e /\ is_IndexError e = true.

(** The document class of the PDF library, which is not part of the
    repository, as far as [insert_image] meets it: [len(doc)] is the page
    count; [doc.load_page(i)] raises [ValueError("page not in document")]
    for an index at or beyond the page count and, in a document with
    pages, counts a negative index from the end.  A negative index into a
    document without pages is outside what is modelled. *)
Record FitzDoc : Type := mkFitzDoc { fitz_pages : DummyDoc }.

Definition fitz_load_page (d : FitzDoc) (page_id : Z) : result nat :=
  let n := Z.of_nat (List.length (fitz_pages d)) in
  if (n <=? page_id)%Z
  then Raise (Exn ValueError "page not in document")
  else Ok (Z.to_nat (page_id mod n)).

#[export] Instance FitzDoc_PdfDocument : PdfDocument FitzDoc nat := {
  doc_len d := Z.of_nat (List.length (fitz_pages d));
  doc_load_page := fitz_load_page;
  page_insert_image d pos rect filename keep_proportion overlay :=
    (mkFitzDoc
       (record_call (fitz_pages d) pos
          (mkCall rect filename keep_proportion overlay)), None)
}.

(** *** fill_form_fields

    The form doubles of [tests/pdf_sig/test_operations.py]: a document is a
    Python list of [DummyPage]s, a page the list of its [DummyWidget]s;
    [load_page] indexes the list, [widgets()] hands out the widgets
    themselves, so that filling one changes the document. *)
Record DummyWidget : Type := mkWidget {
  field_name : option string;
  field_value : option string;
  updated : bool
}.

Definition DummyPage : Type := list DummyWidget.
Definition FormDoc : Type := list DummyPage.

(** A [Dict[str, str]] as the list of its items; [values[key]] is the value
    of the first item with that key, [key in values] says there is one. *)
Definition Dict : Type := list (string * string).

Fixpoint dict_get (values : Dict) (key : string) : option string :=
  match values with
  | [] => None
  | (k, v) :: rest => if String.eqb k key then Some v else dict_get rest key
  end.

(** [l[index]] for a Python list, by position. *)
Definition py_index {A : Type} (l : list A) (index : Z) : result nat :=
  let n := Z.of_nat (List.length l) in
  let i := if (index <? 0)%Z then (index + n)%Z else index in
  if ((0 <=? i) && (i <? n))%Z
  then Ok (Z.to_nat i)
  else Raise (Exn IndexError "list index out of range").

(** The list with the element at [pos] replaced. *)
Fixpoint list_set {A : Type} (l : list A) (pos : nat) (a : A) : list A :=
  match l, pos with
  | [], _ => []
  | _ :: rest, O => a :: rest
  | x :: rest, S k => x :: list_set rest k a
  end.

(** [range(n)] *)
Definition py_range (n : nat) : list Z := map Z.of_nat (seq 0 n).

(** The inner loop, [for widget in widgets]: the widgets after the loop and
    the list [changed] after it.  A name that is [None] or empty is
    false. *)
Fixpoint fill_widgets
  (values : Dict) (widgets : list DummyWidget) (changed : list string)
  : list DummyWidget * list string :=
  match widgets with
  | [] => ([], changed)
  | widget :: rest =>
    let skip :=
      let '(rest', changed') := fill_widgets values rest changed in
      (widget :: rest', changed') in
    match field_name widget with
    | None => skip
    | Some name =>
      if String.eqb name ""
      then skip
      else
        match dict_get values name with
        | None => skip
        | Some value =>
          let widget' := mkWidget (field_name widget) (Some value) true in
          let '(rest', changed') :=
            fill_widgets values rest (changed ++ [name])%list in
          (widget' :: rest', changed')
        end
    end
  end.

(** The outer loop, [for page_index in range(len(doc))]. *)
Fixpoint fill_pages
  (values : Dict) (indices : list Z) (doc : FormDoc) (changed : list string)
  : FormDoc * result (list string) :=
  match indices with
  | [] => (doc, Ok changed)
  | page_index :: rest =>
    match py_index doc page_index with
    | Raise e => (doc, Raise e)
    | Ok pos =>
      let widgets := nth pos doc [] in
      let '(widgets', changed') := fill_widgets values widgets changed in
      fill_pages values rest (list_set doc pos widgets') changed'
    end
  end.

Definition fill_form_fields (doc : FormDoc) (values : Dict)
  : FormDoc * result (list string) :=
  match values with
  | [] => (doc, Ok [])
  | _ :: _ => fill_pages values (py_range (List.length doc)) doc []
  end.

End Operations.

(** ** pdf_sig/gui.py: PDFFormApp

    The application object as far as its document and pointer logic goes:
    the two controllers, the rectangle and scale of the rendered page, and
    the state of a drag or resize.  Widgets, canvas items, the status line,
    message boxes and the render timer are left out; the calls on them
    change none of the fields below, and are taken to return.  The results
    of the dialogs, the canvas size and the rendering of a page come in as
    arguments. *)

Module Gui.

Record App : Type := mkApp {
  doc_controller : DocumentController.t;
  signature_controller : SignatureController.t;
  page_rect : option Rect;
  page_scale : Q * Q;
  active_handle : option string;
  _is_resizing : bool;
  _is_dragging : bool;
  _drag_offset : Q * Q
}.

(** [__init__] *)
Definition init (pdf_opener : string -> result DocumentController.Document)
  : App :=
  mkApp (DocumentController.init pdf_opener)
        (SignatureController.init SignatureController.DEFAULT_MAX_SIGNATURE_WIDTH)
        None (1, 1) None false false (0, 0).

Definition set_doc_controller (a : App) (c : DocumentController.t) : App :=
  mkApp c (signature_controller a) (page_rect a) (page_scale a)
        (active_handle a) (_is_resizing a) (_is_dragging a) (_drag_offset a).

Definition set_signature_controller (a : App) (s : SignatureController.t)
  : App :=
  mkApp (doc_controller a) s (page_rect a) (page_scale a)
        (active_handle a) (_is_resizing a) (_is_dragging a) (_drag_offset a).

(** [self.signature_controller.rect = rect] *)
Definition set_signature_rect (a : App) (r : Rect) : App :=
  set_signature_controller a
    (SignatureController.set_rect (signature_controller a) r).

Definition set_active_handle (a : App) (h : option string) : App :=
  mkApp (doc_controller a) (signature_controller a) (page_rect a)
        (page_scale a) h (_is_resizing a) (_is_dragging a) (_drag_offset a).

Definition set_is_resizing (a : App) (b : bool) : App :=
  mkApp (doc_controller a) (signature_controller a) (page_rect a)
        (page_scale a) (active_handle a) b (_is_dragging a) (_drag_offset a).

Definition set_is_dragging (a : App) (b : bool) : App :=
  mkApp (doc_controller a) (signature_controller a) (page_rect a)
        (page_scale a) (active_handle a) (_is_resizing a) b (_drag_offset a).

Definition set_drag_offset (a : App) (o : Q * Q) : App :=
  mkApp (doc_controller a) (signature_controller a) (page_rect a)
        (page_scale a) (active_handle a) (_is_resizing a) (_is_dragging a) o.

Definition set_page_rect (a : App) (r : Rect) : App :=
  mkApp (doc_controller a) (signature_controller a) (Some r) (page_scale a)
        (active_handle a) (_is_resizing a) (_is_dragging a) (_drag_offset a).

Definition set_page_scale (a : App) (sc : Q * Q) : App :=
  mkApp (doc_controller a) (signature_controller a) (page_rect a) sc
        (active_handle a) (_is_resizing a) (_is_dragging a) (_drag_offset a).

(** [self.signature_controller.rect] and [self.page_rect] when they are
    true: not [None] and not all-zero. *)
Definition signature_rect (a : App) : option Rect :=
  SignatureController.guarded_rect (signature_controller a).

Definition true_page_rect (a : App) : option Rect :=
  match page_rect a with
  | Some r => if rect_truthy r then Some r else None
  | None => None
  end.

(** [self.active_handle] when it is true: not [None] and not empty. *)
Definition true_active_handle (a : App) : option string :=
  match active_handle a with
  | Some h => if String.eqb h "" then None else Some h
  | None => None
  end.

(** [self.signature_controller.page_index == self.doc_controller.page_index] *)
Definition on_current_page (a : App) : bool :=
  match SignatureController.page_index (signature_controller a) with
  | Some i => Z.eqb i (DocumentController.page_index (doc_controller a))
  | None => false
  end.

Definition has_image (a : App) : bool :=
  match SignatureController.image_path (signature_controller a) with
  | Some _ => true
  | None => false
  end.

Definition has_doc (a : App) : bool :=
  DocumentController.doc_truthy (doc_controller a).

Definition _signature_canvas_rect (a : App) : result (Q * Q * Q * Q) :=
  match signature_rect a, true_page_rect a with
  | Some r, Some pr => Layout.pdf_rect_to_canvas_rect r pr (page_scale a)
  | _, _ => Ok (0, 0, 0, 0)
  end.

(** [x0 <= x <= x1 and y0 <= y <= y1] *)
Definition in_canvas_rect (c : Q * Q * Q * Q) (x y : Q) : bool :=
  let '(cx0, cy0, cx1, cy1) := c in
  (Qle_bool cx0 x && Qle_bool x cx1) && (Qle_bool cy0 y && Qle_bool y cy1).

Definition _point_in_signature (a : App) (x y : Q) : result bool :=
  match _signature_canvas_rect a with
  | Raise e => Raise e
  | Ok c => Ok (in_canvas_rect c x y)
  end.

Definition _remove_signature_overlay (a : App) : App :=
  set_is_dragging (set_is_resizing (set_active_handle a None) false) false.

Definition _draw_signature_overlay (a : App) : App * result unit :=
  match signature_rect a, true_page_rect a with
  | Some r, Some pr =>
    if negb (has_image a) || negb (has_doc a) || negb (on_current_page a)
    then (_remove_signature_overlay a, Ok tt)
    else
      match Layout.pdf_rect_to_canvas_rect r pr (page_scale a) with
      | Raise e => (a, Raise e)
      | Ok _ => (a, Ok tt)
      end
  | _, _ => (_remove_signature_overlay a, Ok tt)
  end.

Definition _start_resize (a : App) (corner : string) : App :=
  match signature_rect a with
  | None => a
  | Some _ => set_is_resizing (set_active_handle a (Some corner)) true
  end.

(** The [if self.active_handle == ... elif ...] chain of [_resize_drag]. *)
Definition resize_drag_edge
  (handle : string) (pdf_x pdf_y min_width min_height : Q) (rect : Rect)
  : Rect :=
  if String.eqb handle "n" then set_y0 rect (py_min pdf_y (y1 rect - min_height))
  else if String.eqb handle "s" then set_y1 rect (py_max pdf_y (y0 rect + min_height))
  else if String.eqb handle "w" then set_x0 rect (py_min pdf_x (x1 rect - min_width))
  else if String.eqb handle "e" then set_x1 rect (py_max pdf_x (x0 rect + min_width))
  else rect.

(** [event] is the pointer position [(event.x, event.y)]. *)
Definition _resize_drag (a : App) (event : Q * Q) : App * result unit :=
  match signature_rect a, true_page_rect a, true_active_handle a with
  | Some self_rect, Some pr, Some handle =>
    let '(pdf_x, pdf_y) :=
      Layout.canvas_to_pdf (fst event) (snd event) pr (page_scale a) in
    let min_width := 20 in
    let min_height := 20 in
    let rect :=
      resize_drag_edge handle pdf_x pdf_y min_width min_height self_rect in
    let rect := Layout.clamp_rect rect pr in
    _draw_signature_overlay (set_signature_rect a rect)
  | _, _, _ => (a, Ok tt)
  end.

Definition _end_resize (a : App) : App :=
  set_is_resizing (set_active_handle a None) false.

Definition _start_drag (a : App) (event : Q * Q) : App * result unit :=
  match signature_rect a with
  | None => (a, Ok tt)
  | Some _ =>
    match _signature_canvas_rect a with
    | Raise e => (a, Raise e)
    | Ok (cx0, cy0, cx1, cy1) =>
      if negb (in_canvas_rect (cx0, cy0, cx1, cy1) (fst event) (snd event))
      then (a, Ok tt)
      else
        (set_is_dragging
           (set_drag_offset a (fst event - cx0, snd event - cy0)) true,
         Ok tt)
    end
  end.

Definition _drag_move (a : App) (event : Q * Q) : App * result unit :=
  if negb (_is_dragging a)
  then (a, Ok tt)
  else
    match signature_rect a, true_page_rect a with
    | Some self_rect, Some pr =>
      let width := width self_rect in
      let height := height self_rect in
      let x_canvas := fst event - fst (_drag_offset a) in
      let y_canvas := snd event - snd (_drag_offset a) in
      let '(x_pdf, y_pdf) :=
        Layout.canvas_to_pdf x_canvas y_canvas pr (page_scale a) in
      let rect := mkRect x_pdf y_pdf (x_pdf + width) (y_pdf + height) in
      let rect := Layout.clamp_rect rect pr in
      _draw_signature_overlay (set_signature_rect a rect)
    | _, _ => (a, Ok tt)
    end.

Definition _end_drag (a : App) : App := set_is_dragging a false.

Definition _close_document (a : App) : App :=
  let a := set_doc_controller a (DocumentController.close (doc_controller a)) in
  let a :=
    set_signature_controller a
      (SignatureController.reset (signature_controller a)) in
  _remove_signature_overlay a.

Section Collaborators.

(** The size of the image at a path, [Image.open(path).size], which may
    raise. *)
Variable image_size_of : string -> result (Z * Z).

(** The pages of a document: [doc.load_page(i)], [page.rect], and the size
    in pixels of [page.get_pixmap(matrix=Matrix(scale, scale))]. *)
Variable Page : Type.
Variable doc_load_page : DocumentController.Document -> Z -> result Page.
Variable rect_of_page : Page -> Rect.
Variable get_pixmap : Page -> Q -> result (Z * Z).

(** [_handle_canvas_click]; [event] is the pointer position. *)
Definition _handle_canvas_click (a : App) (event : Q * Q)
  : App * result unit :=
  match has_doc a, true_page_rect a with
  | true, Some pr =>
    let hit :=
      match signature_rect a with
      | None => Ok false
      | Some _ =>
        if negb (on_current_page a)
        then Ok false
        else
          match SignatureController.point_in_signature
                  (signature_controller a) (fst event) (snd event) pr
                  (page_scale a) with
          | Raise e => Raise e
          | Ok inside => Ok (inside && negb (_is_resizing a))
          end
      end in
    match hit with
    | Raise e => (a, Raise e)
    | Ok true => _start_drag a event
    | Ok false =>
      match SignatureController.image_path (signature_controller a) with
      | None => (a, Ok tt)
      | Some path =>
        if _is_resizing a
        then (a, Ok tt)
        else
          match image_size_of path with
          | Raise e => (a, Raise e)
          | Ok image_size =>
            let '(s, _) :=
              SignatureController.place_on_page (signature_controller a)
                (fst event) (snd event)
                (DocumentController.page_index (doc_controller a))
                pr (page_scale a) image_size in
            _draw_signature_overlay (set_signature_controller a s)
          end
      end
    end
  | _, _ => (a, Ok tt)
  end.

(** [_render_page]; [canvas] is [(winfo_width(), winfo_height())]. *)
Definition _render_page (a : App) (canvas : Z * Z) : App * result unit :=
  if negb (has_doc a)
  then (a, Ok tt)
  else
    match DocumentController.load_page doc_load_page (doc_controller a) with
    | Raise e => (a, Raise e)
    | Ok None => (a, Raise (Exn (OtherError "AttributeError")
                              "'NoneType' object has no attribute 'rect'"))
    | Ok (Some page) =>
      let rect := rect_of_page page in
      let canvas_width := py_max 100 (inject_Z (fst canvas)) in
      let canvas_height := py_max 100 (inject_Z (snd canvas)) in
      match Layout.py_div canvas_width (width rect) with
      | Raise e => (a, Raise e)
      | Ok sx =>
        match Layout.py_div canvas_height (height rect) with
        | Raise e => (a, Raise e)
        | Ok sy =>
          let scale := py_min sx sy in
          let scale := py_max scale (1 # 4) in
          match get_pixmap page scale with
          | Raise e => (a, Raise e)
          | Ok (image_width, image_height) =>
            let a := set_page_rect a rect in
            match Layout.py_div (width rect) (inject_Z image_width) with
            | Raise e => (a, Raise e)
            | Ok scale_x =>
              match Layout.py_div (height rect) (inject_Z image_height) with
              | Raise e => (a, Raise e)
              | Ok scale_y =>
                let a := set_page_scale a (scale_x, scale_y) in
                match signature_rect a with
                | Some _ =>
                  if on_current_page a && has_image a
                  then _draw_signature_overlay a
                  else (_remove_signature_overlay a, Ok tt)
                | None => (_remove_signature_overlay a, Ok tt)
                end
              end
            end
          end
        end
      end
    end.

Definition _prev_page (a : App) (canvas : Z * Z) : App * result unit :=
  _render_page
    (set_doc_controller a (DocumentController.prev_page (doc_controller a)))
    canvas.

Definition _next_page (a : App) (canvas : Z * Z) : App * result unit :=
  _render_page
    (set_doc_controller a (DocumentController.next_page (doc_controller a)))
    canvas.

(** [_open_pdf]; [filename] is the answer of the open dialog. *)
Definition _open_pdf (a : App) (filename : option string) (canvas : Z * Z)
  : App * result unit :=
  match filename with
  | None => (a, Ok tt)
  | Some path =>
    let a := _close_document a in
    match DocumentController.open (doc_controller a) path with
    | (c, Raise e) =>
      if is_RuntimeError e
      then (set_doc_controller a c, Ok tt)
      else (set_doc_controller a c, Raise e)
    | (c, Ok _) => _render_page (set_doc_controller a c) canvas
    end
  end.

(** [_open_pdf_after_save] *)
Definition _open_pdf_after_save (a : App) (filename : string) (canvas : Z * Z)
  : App * result unit :=
  match DocumentController.reload (doc_controller a) filename with
  | (c, Raise e) => (set_doc_controller a c, Raise e)
  | (c, Ok doc) =>
    let a := set_doc_controller a c in
    let doc_true :=
      match doc with
      | Some d => negb (Nat.eqb (DocumentController.doc_len d) 0)
      | None => false
      end in
    if negb doc_true
    then (a, Ok tt)
    else
      let a := _close_document a in
      let a :=
        set_doc_controller a
          (DocumentController.clamp_page_index (doc_controller a)) in
      _render_page a canvas
  end.

End Collaborators.

End Gui.

(** ** The geometry in doubles

    [layout.py] and the two geometric methods of [SignatureController] once
    more, on binary64 floats: every [+], [-], [*] and [/] rounds as the
    Python operation does, and comparisons are those of floats. *)

Module FloatLayout.

Local Open Scope float_scope.

(** [fitz.Rect] with float coordinates. *)
Record Rect : Type := mkRect { x0 : float; y0 : float; x1 : float; y1 : float }.

Definition set_x0 (r : Rect) (v : float) : Rect := mkRect v (y0 r) (x1 r) (y1 r).
Definition set_y0 (r : Rect) (v : float) : Rect := mkRect (x0 r) v (x1 r) (y1 r).
Definition set_x1 (r : Rect) (v : float) : Rect := mkRect (x0 r) (y0 r) v (y1 r).
Definition set_y1 (r : Rect) (v : float) : Rect := mkRect (x0 r) (y0 r) (x1 r) v.

(** The builtins [max(a, b)] and [min(a, b)]. *)
Definition py_max (a b : float) : float := if a <? b then b else a.
Definition py_min (a b : float) : float := if b <? a then b else a.

(** [Rect.width], [Rect.height] and [bool(rect)]. *)
Definition width (r : Rect) : float := py_max 0 (x1 r - x0 r).
Definition height (r : Rect) : float := py_max 0 (y1 r - y0 r).

Definition rect_truthy (r : Rect) : bool :=
  negb ((x0 r =? 0) && (y0 r =? 0) && (x1 r =? 0) && (y1 r =? 0)).

(** [a / b] for two Python integers, by way of their floats; the same
    value as long as both are below 2^53, as image sizes are. *)
Definition float_of_Z (z : Z) : float :=
  if (z <? 0)%Z
  then - of_uint63 (Uint63.of_Z (- z))
  else of_uint63 (Uint63.of_Z z).

Definition clamp_rect (rect bounds : Rect) : Rect :=
  let clamped := rect in
  let dx := py_max 0 (x1 clamped - x1 bounds) in
  let dy := py_max 0 (y1 clamped - y1 bounds) in
  let clamped := set_x0 clamped (x0 clamped - dx) in
  let clamped := set_x1 clamped (x1 clamped - dx) in
  let clamped := set_y0 clamped (y0 clamped - dy) in
  let clamped := set_y1 clamped (y1 clamped - dy) in
  let clamped :=
    if x0 clamped <? x0 bounds
    then
      let c := set_x1 clamped (x1 clamped + (x0 bounds - x0 clamped)) in
      set_x0 c (x0 bounds)
    else clamped in
  let clamped :=
    if y0 clamped <? y0 bounds
    then
      let c := set_y1 clamped (y1 clamped + (y0 bounds - y0 clamped)) in
      set_y0 c (y0 bounds)
    else clamped in
  clamped.

Definition canvas_to_pdf
  (x y : float) (page_rect : Rect) (page_scale : float * float)
  : float * float :=
  (x * fst page_scale + x0 page_rect, y * snd page_scale + y0 page_rect).

Definition py_div (a b : float) : result float :=
  if b =? 0
  then Raise (Exn ZeroDivisionError "float division by zero")
  else Ok (a / b).

Definition pdf_rect_to_canvas_rect
  (rect page_rect : Rect) (page_scale : float * float)
  : result (float * float * float * float) :=
  match py_div (x0 rect - x0 page_rect) (fst page_scale) with
  | Raise e => Raise e
  | Ok cx0 =>
    match py_div (y0 rect - y0 page_rect) (snd page_scale) with
    | Raise e => Raise e
    | Ok cy0 =>
      match py_div (x1 rect - x0 page_rect) (fst page_scale) with
      | Raise e => Raise e
      | Ok cx1 =>
        match py_div (y1 rect - y0 page_rect) (snd page_scale) with
        | Raise e => Raise e
        | Ok cy1 => Ok (cx0, cy0, cx1, cy1)
        end
      end
    end
  end.

Definition aspect_of (image_size : Z * Z) : float :=
  if Z.eqb (fst image_size) 0
  then 1
  else float_of_Z (snd image_size) / float_of_Z (fst image_size).

Definition new_signature_rect
  (canvas_x canvas_y : float) (page_rect : Rect) (page_scale : float * float)
  (image_size : Z * Z) (max_width_points : float) : Rect :=
  let width := py_max 10 (py_min max_width_points (width page_rect)) in
  let aspect := aspect_of image_size in
  let height := width * aspect in
  let '(x_pdf, y_pdf) := canvas_to_pdf canvas_x canvas_y page_rect page_scale in
  let rect := mkRect x_pdf y_pdf (x_pdf + width) (y_pdf + height) in
  clamp_rect rect page_rect.

End FloatLayout.

Module FloatSignatureController.

Local Open Scope float_scope.

Record t : Type := mk {
  max_width_points : float;
  image_path : option string;
  rect : option FloatLayout.Rect;
  page_index : option Z
}.

Definition set_rect (s : t) (r : FloatLayout.Rect) : t :=
  mk (max_width_points s) (image_path s) (Some r) (page_index s).

Definition guarded_rect (s : t) : option FloatLayout.Rect :=
  match rect s with
  | Some r => if FloatLayout.rect_truthy r then Some r else None
  | None => None
  end.

Definition move_to
  (s : t) (canvas_x canvas_y : float) (page_rect : FloatLayout.Rect)
  (page_scale : float * float) : t * option FloatLayout.Rect :=
  match guarded_rect s with
  | None => (s, None)
  | Some self_rect =>
    let width := FloatLayout.width self_rect in
    let height := FloatLayout.height self_rect in
    let x_pdf := canvas_x * fst page_scale + FloatLayout.x0 page_rect in
    let y_pdf := canvas_y * snd page_scale + FloatLayout.y0 page_rect in
    let rect :=
      FloatLayout.mkRect x_pdf y_pdf (x_pdf + width) (y_pdf + height) in
    let new_rect := FloatLayout.clamp_rect rect page_rect in
    (set_rect s new_rect, Some new_rect)
  end.

Definition resize_edge
  (handle : string) (pdf_x pdf_y min_width min_height : float)
  (rect : FloatLayout.Rect) : FloatLayout.Rect :=
  if String.eqb handle "n"
  then FloatLayout.set_y0 rect
         (FloatLayout.py_min pdf_y (FloatLayout.y1 rect - min_height))
  else if String.eqb handle "s"
  then FloatLayout.set_y1 rect
         (FloatLayout.py_max pdf_y (FloatLayout.y0 rect + min_height))
  else if String.eqb handle "w"
  then FloatLayout.set_x0 rect
         (FloatLayout.py_min pdf_x (FloatLayout.x1 rect - min_width))
  else if String.eqb handle "e"
  then FloatLayout.set_x1 rect
         (FloatLayout.py_max pdf_x (FloatLayout.x0 rect + min_width))
  else rect.

Definition resize
  (s : t) (handle : string) (pdf_x pdf_y : float)
  (page_rect : FloatLayout.Rect) (min_width min_height : float)
  : t * option FloatLayout.Rect :=
  match guarded_rect s with
  | None => (s, None)
  | Some self_rect =>
    let rect := resize_edge handle pdf_x pdf_y min_width min_height self_rect in
    let new_rect := FloatLayout.clamp_rect rect page_rect in
    (set_rect s new_rect, Some new_rect)
  end.

End FloatSignatureController.

(** ** Vocabulary of the specification *)

(** [canvas_rect_to_pdf] of the round-trip law: [canvas_to_pdf] applied to
    the two corners of a canvas rectangle. *)
Definition canvas_rect_to_pdf
  (r page_rect : Rect) (page_scale : Q * Q) : Rect :=
  let '(px0, py0) := Layout.canvas_to_pdf (x0 r) (y0 r) page_rect page_scale in
  let '(px1, py1) := Layout.canvas_to_pdf (x1 r) (y1 r) page_rect page_scale in
  mkRect px0 py0 px1 py1.

(** [clamp(v, lower, upper)] as the specification writes the signature
    width; the lower bound wins when the bounds cross. *)
Definition spec_clamp (v lower upper : Q) : Q := py_max lower (py_min v upper).

(** Horizontal and vertical extent of a rectangle, [x1 - x0] and [y1 - y0];
    they are its [width] and [height] whenever [x0 <= x1] and [y0 <= y1]. *)
Definition x_extent (r : Rect) : Q := x1 r - x0 r.
Definition y_extent (r : Rect) : Q := y1 r - y0 r.

(** The point [(px, py)] lies in the rectangle, edges included. *)
Definition contains (r : Rect) (px py : Q) : Prop :=
  (x0 r <= px /\ px <= x1 r) /\ (y0 r <= py /\ py <= y1 r).

(** What [fill_form_fields] does to one widget, and the name it reports for
    it: a widget is filled when its name is not empty and is a key of
    [values]. *)
Definition widget_value (values : Operations.Dict) (w : Operations.DummyWidget)
  : option (string * string) :=
  match Operations.field_name w with
  | None => None
  | Some name =>
    if String.eqb name "" then None
    else
      match Operations.dict_get values name with
      | None => None
      | Some value => Some (name, value)
      end
  end.

Definition filled (values : Operations.Dict) (w : Operations.DummyWidget)
  : Operations.DummyWidget :=
  match widget_value values w with
  | Some (_, value) =>
    Operations.mkWidget (Operations.field_name w) (Some value) true
  | None => w
  end.

Definition reported (values : Operations.Dict) (w : Operations.DummyWidget)
  : list string :=
  match widget_value values w with
  | Some (name, _) => [name]
  | None => []
  end.

(** [clamp_rect] one axis at a time: the low and the high coordinate of the
    result from those of the rectangle ([lo], [hi]) and of the bounds
    ([blo], [bhi]).  [clamp_rect_x0] to [clamp_rect_y1] below show that the
    function computes exactly these. *)
Definition clamp_lo (lo hi blo bhi : Q) : Q :=
  let d := py_max 0 (hi - bhi) in
  if Qltb (lo - d) blo then blo else lo - d.

Definition clamp_hi (lo hi blo bhi : Q) : Q :=
  let d := py_max 0 (hi - bhi) in
  if Qltb (lo - d) blo then hi - d + (blo - (lo - d)) else hi - d.

(** * Properties *)

(** ** Comparisons *)

Lemma Qltb_spec (a b : Q) : BoolSpec (a < b) (b <= a) (Qltb a b).
Proof.
  unfold Qltb. destruct (a ?= b) eqn:E; constructor.
  - apply Qeq_alt in E. rewrite E. apply Qle_refl.
  - apply Qlt_alt. exact E.
  - apply Qgt_alt in E. apply Qlt_le_weak. exact E.
Qed.

Lemma Qeq_bool_spec (a b : Q) : BoolSpec (a == b) (~ a == b) (Qeq_bool a b).
Proof.
  destruct (Qeq_bool a b) eqn:E; constructor.
  - apply Qeq_bool_iff. exact E.
  - apply Qeq_bool_neq. exact E.
Qed.

(** Case analysis on every comparison the code makes, innermost first. *)
Ltac split_lt a b :=
  lazymatch a with
  | context [Qltb _ _] => fail
  | _ =>
    lazymatch b with
    | context [Qltb _ _] => fail
    | _ => destruct (Qltb_spec a b)
    end
  end.

Ltac rect_simpl :=
  cbn [x0 y0 x1 y1 set_x0 set_y0 set_x1 set_y1 fst snd] in *.

Ltac q_cases :=
  rect_simpl;
  repeat (match goal with
          | |- context [Qltb ?a ?b] => split_lt a b
          | H : context [Qltb ?a ?b] |- _ => split_lt a b
          end; rect_simpl).

Ltac unfold_geometry :=
  unfold within, rect_eq, x_extent, y_extent, width, height,
    clamp_lo, clamp_hi, py_max, py_min in *.

(** ** clamp_rect *)

Ltac clamp_projection :=
  unfold Layout.clamp_rect, clamp_lo, clamp_hi; rect_simpl;
  repeat match goal with
         | |- context [if Qltb ?a ?b then _ else _] =>
           lazymatch a with
           | context [Qltb _ _] => fail
           | _ => destruct (Qltb a b); rect_simpl
           end
         end;
  reflexivity.

Lemma clamp_rect_x0 (R B : Rect) :
  x0 (Layout.clamp_rect R B) = clamp_lo (x0 R) (x1 R) (x0 B) (x1 B).
Proof. clamp_projection. Qed.

Lemma clamp_rect_x1 (R B : Rect) :
  x1 (Layout.clamp_rect R B) = clamp_hi (x0 R) (x1 R) (x0 B) (x1 B).
Proof. clamp_projection. Qed.

Lemma clamp_rect_y0 (R B : Rect) :
  y0 (Layout.clamp_rect R B) = clamp_lo (y0 R) (y1 R) (y0 B) (y1 B).
Proof. clamp_projection. Qed.

Lemma clamp_rect_y1 (R B : Rect) :
  y1 (Layout.clamp_rect R B) = clamp_hi (y0 R) (y1 R) (y0 B) (y1 B).
Proof. clamp_projection. Qed.

Create Rewrite HintDb clamp.
#[local] Hint Rewrite
  clamp_rect_x0 clamp_rect_x1 clamp_rect_y0 clamp_rect_y1 : clamp.

Ltac geometry :=
  unfold within, rect_eq, x_extent, y_extent, width, height in *;
  autorewrite with clamp in *;
  unfold_geometry; q_cases; repeat split; lra.

Lemma clamp_rect_x_extent (R B : Rect) :
  x_extent (Layout.clamp_rect R B) == x_extent R.
Proof. geometry. Qed.

Lemma clamp_rect_y_extent (R B : Rect) :
  y_extent (Layout.clamp_rect R B) == y_extent R.
Proof. geometry. Qed.

Lemma clamp_rect_width (R B : Rect) :
  width (Layout.clamp_rect R B) == width R.
Proof. geometry. Qed.

Lemma clamp_rect_height (R B : Rect) :
  height (Layout.clamp_rect R B) == height R.
Proof. geometry. Qed.

Lemma clamp_rect_within (R B : Rect) :
  x_extent R <= x_extent B -> y_extent R <= y_extent B ->
  within (Layout.clamp_rect R B) B.
Proof. intros Hx Hy. geometry. Qed.

Lemma clamp_rect_too_wide (R B : Rect) :
  x_extent B < x_extent R ->
  x0 (Layout.clamp_rect R B) == x0 B /\ x1 B < x1 (Layout.clamp_rect R B).
Proof. intros Hx. geometry. Qed.

Lemma clamp_rect_too_tall (R B : Rect) :
  y_extent B < y_extent R ->
  y0 (Layout.clamp_rect R B) == y0 B /\ y1 B < y1 (Layout.clamp_rect R B).
Proof. intros Hy. geometry. Qed.

Lemma width_extent (r : Rect) : x0 r <= x1 r -> width r == x_extent r.
Proof. intros Hv. geometry. Qed.

Lemma height_extent (r : Rect) : y0 r <= y1 r -> height r == y_extent r.
Proof. intros Hv. geometry. Qed.

(** [clamp_rect] respects coordinate-wise equality. *)
Lemma clamp_rect_rect_eq (R R' B B' : Rect) :
  rect_eq R R' -> rect_eq B B' ->
  rect_eq (Layout.clamp_rect R B) (Layout.clamp_rect R' B').
Proof.
  intros (Hr0 & Hr1 & Hr2 & Hr3) (Hb0 & Hb1 & Hb2 & Hb3).
  unfold rect_eq. autorewrite with clamp. unfold_geometry.
  repeat split; q_cases; lra.
Qed.

Lemma clamp_rect_idempotent_x (R B : Rect) :
  x0 (Layout.clamp_rect (Layout.clamp_rect R B) B) == x0 (Layout.clamp_rect R B)
  /\ x1 (Layout.clamp_rect (Layout.clamp_rect R B) B) == x1 (Layout.clamp_rect R B).
Proof. geometry. Qed.

Lemma clamp_rect_idempotent_y (R B : Rect) :
  y0 (Layout.clamp_rect (Layout.clamp_rect R B) B) == y0 (Layout.clamp_rect R B)
  /\ y1 (Layout.clamp_rect (Layout.clamp_rect R B) B) == y1 (Layout.clamp_rect R B).
Proof. geometry. Qed.

(** Closed numeric side conditions. *)
Ltac q_closed :=
  unfold within, rect_eq, x_extent, y_extent, width, height;
  first [ reflexivity
        | vm_compute;
          first [ reflexivity | discriminate | repeat split; discriminate ] ].

(** C1, the claim as stated, fails in doubles.  The bounds (10.1, 0, 20.2,
    1) are wider and as high as the rectangle (99.9, 0, 100, 1), yet the
    right edge of the result is 20.200000000000003, beyond the bounds: the
    shift [x1 - bounds.x1] is rounded, and so is each subtraction of it.
    And [clamp_rect] of (-71, 10, -59.1, 20) to (10.8, 0, 293, 800) is
    11.899999999999995 wide where the rectangle is 11.899999999999999
    wide. *)
Lemma clamp_rect_rounding_leaves_bounds :
  let R := FloatLayout.mkRect 99.9 0 100 1 in
  let B := FloatLayout.mkRect 10.1 0 20.2 1 in
  let C := FloatLayout.clamp_rect R B in
  let R' := FloatLayout.mkRect (-71) 10 (-59.1) 20 in
  let B' := FloatLayout.mkRect 10.8 0 293 800 in
  let C' := FloatLayout.clamp_rect R' B' in
  (PrimFloat.leb (FloatLayout.width R) (FloatLayout.width B) = true
   /\ PrimFloat.leb (FloatLayout.height R) (FloatLayout.height B) = true
   /\ FloatLayout.x1 C = 20.200000000000003%float
   /\ PrimFloat.ltb (FloatLayout.x1 B) (FloatLayout.x1 C) = true)
  /\ (FloatLayout.width R' = 11.899999999999999%float
      /\ FloatLayout.width C' = 11.899999999999995%float
      /\ PrimFloat.ltb (FloatLayout.width C') (FloatLayout.width R') = true).
Proof. vm_compute. repeat split. Qed.

(** C1, amended.  Over exact arithmetic (the code's floating-point rounding
    aside), [clamp_rect] only translates: horizontal and vertical extent
    (and with them [width] and [height]) of the result are those of the
    rectangle, for every rectangle and all bounds.  When the bounds are at
    least as wide and as tall as the rectangle, the result lies within the
    bounds.  When the bounds are narrower than the rectangle the top-left
    correction takes priority: the left edge of the result is the left edge
    of the bounds and its right edge exceeds the bounds; likewise, for
    bounds that are less tall, the top edge is that of the bounds and the
    bottom edge exceeds them. *)
Theorem clamp_rect_translate_only (R B : Rect) :
  let C := Layout.clamp_rect R B in
  (x_extent C == x_extent R /\ y_extent C == y_extent R) /\
  (width C == width R /\ height C == height R) /\
  (x_extent R <= x_extent B -> y_extent R <= y_extent B -> within C B) /\
  (x_extent B < x_extent R -> x0 C == x0 B /\ x1 B < x1 C) /\
  (y_extent B < y_extent R -> y0 C == y0 B /\ y1 B < y1 C).
Proof.
  intro C. subst C.
  split; [split; [apply clamp_rect_x_extent | apply clamp_rect_y_extent] |].
  split; [split; [apply clamp_rect_width | apply clamp_rect_height] |].
  split; [apply clamp_rect_within |].
  split; [apply clamp_rect_too_wide | apply clamp_rect_too_tall].
Qed.

Lemma clamp_rect_translate_only_witness :
  within (Layout.clamp_rect (mkRect 80 80 140 140) (mkRect 0 0 100 100))
         (mkRect 0 0 100 100)
  /\ (x0 (Layout.clamp_rect (mkRect 20 20 90 90) (mkRect 10 10 60 60)) == 10
      /\ 60 < x1 (Layout.clamp_rect (mkRect 20 20 90 90) (mkRect 10 10 60 60)))
  /\ (y0 (Layout.clamp_rect (mkRect 20 20 90 90) (mkRect 10 10 60 60)) == 10
      /\ 60 < y1 (Layout.clamp_rect (mkRect 20 20 90 90) (mkRect 10 10 60 60))).
Proof.
  split; [| split].
  - apply (clamp_rect_translate_only (mkRect 80 80 140 140) (mkRect 0 0 100 100));
      q_closed.
  - apply (clamp_rect_translate_only (mkRect 20 20 90 90) (mkRect 10 10 60 60));
      q_closed.
  - apply (clamp_rect_translate_only (mkRect 20 20 90 90) (mkRect 10 10 60 60));
      q_closed.
Defined.

(** C10, the claim as stated, fails in doubles: clamping (99.9, 0, 100, 1)
    to (10.1, 0, 20.2, 1) leaves the right edge at 20.200000000000003, an
    ulp beyond the bounds, so clamping the result again moves it, to
    (20.100000000000005, 0, 20.2, 1). *)
Lemma clamp_rect_rounding_not_idempotent :
  let R := FloatLayout.mkRect 99.9 0 100 1 in
  let B := FloatLayout.mkRect 10.1 0 20.2 1 in
  let C := FloatLayout.clamp_rect R B in
  let CC := FloatLayout.clamp_rect C B in
  C = FloatLayout.mkRect 20.100000000000009 0 20.200000000000003 1
  /\ CC = FloatLayout.mkRect 20.100000000000005 0 20.2 1
  /\ PrimFloat.ltb (FloatLayout.x0 CC) (FloatLayout.x0 C) = true
  /\ PrimFloat.ltb (FloatLayout.x1 CC) (FloatLayout.x1 C) = true.
Proof. vm_compute. repeat split. Qed.

(** C10, amended.  Over exact arithmetic (the code's floating-point rounding
    aside), [clamp_rect] is idempotent: clamping a clamped rectangle to the
    same bounds changes no coordinate, whatever the sizes of the rectangle
    and of the bounds. *)
Theorem clamp_rect_idempotent (R B : Rect) :
  rect_eq (Layout.clamp_rect (Layout.clamp_rect R B) B) (Layout.clamp_rect R B).
Proof.
  destruct (clamp_rect_idempotent_x R B) as [Hx0 Hx1].
  destruct (clamp_rect_idempotent_y R B) as [Hy0 Hy1].
  unfold rect_eq. auto.
Qed.

(** The tests of [tests/pdf_sig/test_layout.py] on [clamp_rect], and the
    idempotence law on a rectangle larger than its bounds, evaluated. *)
Example test_clamp_rect_keeps_rect_inside_bounds :
  Layout.clamp_rect (mkRect 80 80 140 140) (mkRect 0 0 100 100)
  = mkRect 40 40 100 100.
Proof. vm_compute. reflexivity. Qed.

Example test_clamp_rect_handles_top_left_overflow :
  Layout.clamp_rect (mkRect (-20) (-5) 30 30) (mkRect 10 10 60 60)
  = mkRect 10 10 60 45.
Proof. vm_compute. reflexivity. Qed.

Example clamp_rect_small_bounds :
  Layout.clamp_rect (mkRect 20 20 90 90) (mkRect 10 10 60 60)
  = mkRect 10 10 80 80
  /\ Layout.clamp_rect (mkRect 10 10 80 80) (mkRect 10 10 60 60)
     = mkRect 10 10 80 80.
Proof. split; vm_compute; reflexivity. Qed.

(** ** Coordinate conversion *)

Lemma py_div_nonzero (a b : Q) : ~ b == 0 -> Layout.py_div a b = Ok (a / b).
Proof.
  intro Hb. unfold Layout.py_div.
  destruct (Qeq_bool_spec b 0) as [E | E]; [contradiction | reflexivity].
Qed.

Lemma affine_inverse (c s p : Q) : ~ s == 0 -> (c * s + p - p) / s == c.
Proof. intro Hs. field. exact Hs. Qed.

(** C2.  Round trip between canvas and PDF space: for every canvas
    rectangle, page rectangle and scale pair with both components nonzero,
    converting both corners with [canvas_to_pdf] and the resulting
    rectangle back with [pdf_rect_to_canvas_rect] succeeds and returns the
    original four coordinates (exact arithmetic). *)
Theorem canvas_pdf_round_trip (r page_rect : Rect) (page_scale : Q * Q) :
  ~ fst page_scale == 0 -> ~ snd page_scale == 0 ->
  exists cx0 cy0 cx1 cy1,
    Layout.pdf_rect_to_canvas_rect
      (canvas_rect_to_pdf r page_rect page_scale) page_rect page_scale
    = Ok (cx0, cy0, cx1, cy1)
    /\ cx0 == x0 r /\ cy0 == y0 r /\ cx1 == x1 r /\ cy1 == y1 r.
Proof.
  intros Hx Hy.
  unfold Layout.pdf_rect_to_canvas_rect, canvas_rect_to_pdf,
    Layout.canvas_to_pdf.
  rect_simpl. rewrite !py_div_nonzero by assumption.
  do 4 eexists. split; [reflexivity |].
  repeat split; apply affine_inverse; assumption.
Qed.

Lemma canvas_pdf_round_trip_witness :
  exists cx0 cy0 cx1 cy1,
    Layout.pdf_rect_to_canvas_rect
      (canvas_rect_to_pdf (mkRect 10 5 20 10) (mkRect 0 0 200 100) (2, 2))
      (mkRect 0 0 200 100) (2, 2)
    = Ok (cx0, cy0, cx1, cy1)
    /\ cx0 == 10 /\ cy0 == 5 /\ cx1 == 20 /\ cy1 == 10.
Proof.
  apply (canvas_pdf_round_trip (mkRect 10 5 20 10) (mkRect 0 0 200 100) (2, 2));
    vm_compute; discriminate.
Defined.

(** A zero scale component makes the conversion back raise. *)
Lemma pdf_rect_to_canvas_rect_zero_scale (rect page_rect : Rect) (sy : Q) :
  Layout.pdf_rect_to_canvas_rect rect page_rect (0, sy)
  = Raise (Exn ZeroDivisionError "float division by zero").
Proof. reflexivity. Qed.

(** [test_canvas_to_pdf_and_back_round_trip], evaluated. *)
Example test_canvas_to_pdf_and_back_round_trip :
  Layout.canvas_to_pdf 10 5 (mkRect 0 0 200 100) (2, 2) = (20, 10)
  /\ exists cx0 cy0 cx1 cy1,
       Layout.pdf_rect_to_canvas_rect (mkRect 20 10 40 20)
         (mkRect 0 0 200 100) (2, 2) = Ok (cx0, cy0, cx1, cy1)
       /\ cx0 == 10 /\ cy0 == 5 /\ cx1 == 20 /\ cy1 == 10.
Proof.
  split; [vm_compute; reflexivity |].
  do 4 eexists. split; [vm_compute; reflexivity |].
  repeat split; reflexivity.
Qed.

(** ** new_signature_rect *)

(** The rectangle handed to [clamp_rect]: anchored at the click point in PDF
    space, as wide as the cap allows and at least 10 units, with the height
    following the aspect ratio of the image. *)
Lemma new_signature_rect_unfold
  (cx cy : Q) (page : Rect) (scale : Q * Q) (img : Z * Z) (maxw : Q) :
  Layout.new_signature_rect cx cy page scale img maxw
  = let w := py_max 10 (py_min maxw (width page)) in
    let x_pdf := fst (Layout.canvas_to_pdf cx cy page scale) in
    let y_pdf := snd (Layout.canvas_to_pdf cx cy page scale) in
    Layout.clamp_rect
      (mkRect x_pdf y_pdf (x_pdf + w) (y_pdf + w * Layout.aspect_of img)) page.
Proof. reflexivity. Qed.

Lemma new_signature_rect_extent
  (cx cy : Q) (page : Rect) (scale : Q * Q) (img : Z * Z) (maxw : Q) :
  let r := Layout.new_signature_rect cx cy page scale img maxw in
  let w := py_max 10 (py_min maxw (width page)) in
  x_extent r == w /\ y_extent r == w * Layout.aspect_of img.
Proof.
  intros r w. subst r. rewrite new_signature_rect_unfold. cbv zeta.
  rewrite clamp_rect_x_extent, clamp_rect_y_extent.
  fold w. unfold x_extent, y_extent. rect_simpl. split; ring.
Qed.

Lemma signature_width_at_least_10 (maxw pw : Q) :
  10 <= py_max 10 (py_min maxw pw).
Proof. unfold py_max, py_min. q_cases; lra. Qed.

(** The width is not the clamp of any default derived from the image.
    Whatever width [default] assigns to an
    image, a cap and a page wider than it give a signature of the cap's
    width, where the clamp of the default would give at most the default. *)
Lemma new_signature_rect_no_image_default :
  ~ exists default : Z * Z -> Q,
      forall (cx cy : Q) (page : Rect) (scale : Q * Q) (img : Z * Z) (maxw : Q),
        x_extent (Layout.new_signature_rect cx cy page scale img maxw)
        == spec_clamp (default img) 10 (py_min maxw (width page)).
Proof.
  intros [default Hd].
  pose (m := py_max 10 (default (100%Z, 50%Z)) + 1).
  specialize (Hd 0 0 (mkRect 0 0 m m) (1, 1) (100%Z, 50%Z) m).
  destruct (new_signature_rect_extent 0 0 (mkRect 0 0 m m) (1, 1)
              (100%Z, 50%Z) m) as [Hw _].
  cbv zeta in Hw. rewrite Hw in Hd. clear Hw.
  unfold spec_clamp, width in Hd. rect_simpl.
  generalize dependent (default (100%Z, 50%Z)). intros v m Hd.
  subst m. unfold py_max, py_min in Hd. q_cases; lra.
Qed.

(** With the image width in pixels as the default, the two already differ on
    a 50 by 25 image: the code places it 80 wide, the clamp 50 wide. *)
Example new_signature_rect_small_image :
  rect_eq
    (Layout.new_signature_rect 10 20 (mkRect 0 0 300 300) (1, 1) (50%Z, 25%Z) 80)
    (mkRect 10 20 90 60)
  /\ spec_clamp 50 10 (py_min 80 (width (mkRect 0 0 300 300))) = 50.
Proof. split; vm_compute; auto. Qed.

(** C3, the claim as stated, fails twice over.  No default derived from
    the image enters the width; and in doubles the width is not 80 wherever
    the click is: for an image of 100 by 50, a cap of 80 and a page of 612
    by 792, a click at canvas (161, 7) with scale 0.3 gives the rectangle
    (48.3, 2.1, 128.3, 42.1), whose width [x1 - x0] is
    80.00000000000001. *)
Lemma new_signature_rect_claim_fails :
  (~ exists default : Z * Z -> Q,
       forall (cx cy : Q) (page : Rect) (scale : Q * Q) (img : Z * Z) (maxw : Q),
         x_extent (Layout.new_signature_rect cx cy page scale img maxw)
         == spec_clamp (default img) 10 (py_min maxw (width page)))
  /\ (let page := FloatLayout.mkRect 0 0 612 792 in
      let r :=
        FloatLayout.new_signature_rect 161 7 page (0.3, 0.3)%float
          (100%Z, 50%Z) 80 in
      PrimFloat.leb 80 (FloatLayout.width page) = true
      /\ PrimFloat.leb 40 (FloatLayout.height page) = true
      /\ FloatLayout.width r = 80.000000000000014%float
      /\ PrimFloat.ltb 80 (FloatLayout.width r) = true).
Proof.
  split; [exact new_signature_rect_no_image_default |].
  vm_compute. repeat split.
Qed.

Lemma aspect_of_100_50 : Layout.aspect_of (100%Z, 50%Z) == 1 # 2.
Proof. vm_compute. reflexivity. Qed.

(** C3, amended.  Over exact arithmetic (the code's floating-point rounding
    aside), [new_signature_rect] makes the signature [max(10, min(max_width,
    page width))] wide, a value that does not depend on the image, and
    [width * aspect] high, where [aspect] is [image_height / image_width],
    or 1 when the image width is zero; the result is [clamp_rect] of the
    rectangle of that size anchored at the click point in PDF space, so it
    keeps that size.  For an image of 100 by 50, a cap of 80 and a page at
    least 80 by 40, the result is 80 by 40 and lies within the page,
    wherever the click is. *)
Theorem new_signature_rect_size
  (cx cy : Q) (page : Rect) (scale : Q * Q) (img : Z * Z) (maxw : Q) :
  let r := Layout.new_signature_rect cx cy page scale img maxw in
  let w := py_max 10 (py_min maxw (width page)) in
  let aspect := Layout.aspect_of img in
  let '(x_pdf, y_pdf) := Layout.canvas_to_pdf cx cy page scale in
  r = Layout.clamp_rect (mkRect x_pdf y_pdf (x_pdf + w) (y_pdf + w * aspect)) page
  /\ (x_extent r == w /\ y_extent r == w * aspect /\ width r == w)
  /\ (fst img = 0%Z -> aspect = 1)
  /\ (fst img <> 0%Z -> aspect = inject_Z (snd img) / inject_Z (fst img))
  /\ (img = (100%Z, 50%Z) -> maxw == 80 ->
      80 <= width page -> 40 <= height page ->
      x_extent r == 80 /\ y_extent r == 40 /\ within r page).
Proof.
  intros r w aspect.
  destruct (new_signature_rect_extent cx cy page scale img maxw) as [Hw Hh].
  cbv zeta in Hw, Hh. fold r w aspect in Hw, Hh.
  assert (H10 : 10 <= w) by apply signature_width_at_least_10.
  unfold Layout.canvas_to_pdf.
  split; [reflexivity |].
  split; [split; [exact Hw | split; [exact Hh |]] |].
  { clear Hh. unfold width, x_extent in *.
    generalize dependent (x1 r - x0 r). intros e He.
    unfold py_max at 1. q_cases; lra. }
  split.
  { intro Hz. unfold aspect, Layout.aspect_of. rewrite Hz. reflexivity. }
  split.
  { intro Hz. unfold aspect, Layout.aspect_of.
    destruct (Z.eqb_spec (fst img) 0) as [E | E]; [contradiction | reflexivity]. }
  intros Himg Hmax Hpw Hph.
  assert (Ha : aspect == 1 # 2).
  { unfold aspect. rewrite Himg. apply aspect_of_100_50. }
  assert (Hw80 : w == 80).
  { unfold w, py_max, py_min in *. q_cases; lra. }
  assert (Hx : x_extent r == 80) by (rewrite Hw; exact Hw80).
  assert (Hy : y_extent r == 40).
  { rewrite Hh, Ha, Hw80. reflexivity. }
  split; [exact Hx | split; [exact Hy |]].
  unfold r. rewrite new_signature_rect_unfold. cbv zeta.
  apply clamp_rect_within.
  - unfold x_extent at 1. rect_simpl. fold w.
    unfold width, x_extent, py_max in *. q_cases; lra.
  - unfold y_extent at 1. rect_simpl. fold w aspect.
    assert (Hwa : w * aspect == 40) by (rewrite Ha, Hw80; reflexivity).
    unfold height, y_extent, py_max in *. q_cases; lra.
Qed.

Lemma new_signature_rect_size_witness :
  let r := Layout.new_signature_rect 10 20 (mkRect 0 0 300 300) (1, 1)
             (100%Z, 50%Z) 80 in
  x_extent r == 80 /\ y_extent r == 40 /\ within r (mkRect 0 0 300 300).
Proof.
  apply (new_signature_rect_size 10 20 (mkRect 0 0 300 300) (1, 1)
           (100%Z, 50%Z) 80);
    first [ reflexivity | vm_compute; discriminate ].
Defined.

(** [test_new_signature_rect_respects_max_width_and_aspect], evaluated; the
    same image at a click near the bottom-right corner is moved back into
    the page at the same size. *)
Example test_new_signature_rect_respects_max_width_and_aspect :
  rect_eq
    (Layout.new_signature_rect 10 20 (mkRect 0 0 300 300) (1, 1) (100%Z, 50%Z) 80)
    (mkRect 10 20 90 60)
  /\ rect_eq
       (Layout.new_signature_rect 290 290 (mkRect 0 0 300 300) (1, 1)
          (100%Z, 50%Z) 80)
       (mkRect 220 260 300 300).
Proof. split; vm_compute; auto. Qed.

(** ** DocumentController *)

Section DocumentControllerFacts.

Import DocumentController.

Lemma page_count_eq (c : t) :
  page_count c
  = match doc c with Some d => Z.of_nat (doc_len d) | None => 0%Z end.
Proof.
  unfold page_count, doc_truthy. destruct (doc c) as [d |]; [| reflexivity].
  destruct (doc_len d); reflexivity.
Qed.

Lemma page_count_positive (c : t) :
  doc_truthy c = true -> (0 < page_count c)%Z.
Proof.
  rewrite page_count_eq. unfold doc_truthy.
  destruct (doc c) as [d |]; [| discriminate].
  destruct (doc_len d); [discriminate | lia].
Qed.

Lemma init_page_index_ok (pdf_opener : string -> result Document) :
  page_index_ok (init pdf_opener).
Proof. reflexivity. Qed.

Lemma opened_page_index_ok (f : string -> result Document) (d : Document)
  (path : string) :
  page_index_ok (mk f (Some d) (Some path) 0%Z).
Proof.
  unfold page_index_ok.
  destruct (doc_truthy (mk f (Some d) (Some path) 0)) eqn:E; [| reflexivity].
  apply page_count_positive in E. cbn [page_index]. lia.
Qed.

Lemma open_page_index_ok (c : t) (path : string) :
  page_index_ok c -> page_index_ok (fst (open c path)).
Proof.
  intro Hok. unfold open.
  destruct (_open_pdf c path) as [d | e]; cbn [fst];
    [apply opened_page_index_ok | exact Hok].
Qed.

Lemma reload_state (c : t) (path : string) :
  fst (reload c path) = fst (open c path).
Proof.
  unfold reload. destruct (open c path) as [c' [d | e]]; [reflexivity |].
  destruct (is_RuntimeError e); reflexivity.
Qed.

Lemma close_page_index_ok (c : t) : page_index_ok (close c).
Proof. reflexivity. Qed.

Lemma set_page_index_ok (c : t) (i : Z) :
  doc_truthy c = true -> (0 <= i < page_count c)%Z ->
  page_index_ok (set_page_index c i).
Proof.
  intros Ht Hi. unfold page_index_ok.
  change (doc_truthy (set_page_index c i)) with (doc_truthy c).
  change (page_count (set_page_index c i)) with (page_count c).
  rewrite Ht. exact Hi.
Qed.

Lemma next_page_index_ok (c : t) :
  page_index_ok c -> page_index_ok (next_page c).
Proof.
  intro Hok. unfold next_page.
  destruct (doc_truthy c) eqn:Ht; cbn [andb]; [| exact Hok].
  destruct (Z.ltb_spec (page_index c) (page_count c - 1)); [| exact Hok].
  unfold page_index_ok in Hok. rewrite Ht in Hok.
  apply set_page_index_ok; [exact Ht | lia].
Qed.

Lemma prev_page_index_ok (c : t) :
  page_index_ok c -> page_index_ok (prev_page c).
Proof.
  intro Hok. unfold prev_page.
  destruct (doc_truthy c) eqn:Ht; cbn [andb]; [| exact Hok].
  destruct (Z.ltb_spec 0 (page_index c)); [| exact Hok].
  unfold page_index_ok in Hok. rewrite Ht in Hok.
  apply set_page_index_ok; [exact Ht | lia].
Qed.

Lemma clamp_page_index_ok (c : t) :
  page_index_ok c -> page_index_ok (clamp_page_index c).
Proof.
  intro Hok. unfold clamp_page_index.
  destruct (doc_truthy c) eqn:Ht; cbn [negb].
  - unfold page_index_ok in Hok. rewrite Ht in Hok.
    apply set_page_index_ok; [exact Ht | lia].
  - unfold page_index_ok.
    change (doc_truthy (set_page_index c 0)) with (doc_truthy c).
    rewrite Ht. reflexivity.
Qed.

(** [clamp_page_index] repairs the index after the page count shrank: any
    index that is not negative ends up inside the document. *)
Lemma clamp_page_index_repairs (c : t) :
  (0 <= page_index c)%Z -> page_index_ok (clamp_page_index c).
Proof.
  intro Hi. unfold clamp_page_index.
  destruct (doc_truthy c) eqn:Ht; cbn [negb].
  - pose proof (page_count_positive c Ht).
    apply set_page_index_ok; [exact Ht | lia].
  - unfold page_index_ok.
    change (doc_truthy (set_page_index c 0)) with (doc_truthy c).
    rewrite Ht. reflexivity.
Qed.

Lemma run_page_index_ok (c : t) (o : op) :
  page_index_ok c -> page_index_ok (run c o).
Proof.
  intro Hok. destruct o as [path | path | | | |]; cbn [run].
  - apply open_page_index_ok, Hok.
  - rewrite reload_state. apply open_page_index_ok, Hok.
  - apply close_page_index_ok.
  - apply next_page_index_ok, Hok.
  - apply prev_page_index_ok, Hok.
  - apply clamp_page_index_ok, Hok.
Qed.

Lemma run_all_page_index_ok (ops : list op) :
  forall c : t, page_index_ok c -> page_index_ok (run_all c ops).
Proof.
  induction ops as [| o ops IH]; intros c Hok; cbn [run_all fold_left].
  - exact Hok.
  - apply IH, run_page_index_ok, Hok.
Qed.

(** C6, the claim as stated, fails on a document without pages: after
    [open] the controller holds the document, the page count is 0 and the
    index is 0, so [0 <= page_index < page_count] does not hold although a
    document is open; no operation changes that. *)
Lemma page_index_range_fails_without_pages :
  let c := fst (open (init zero_page_opener) "empty.pdf") in
  doc c = Some (mkDocument "empty.pdf" 0)
  /\ current_file c = Some "empty.pdf"
  /\ page_count c = 0%Z
  /\ page_index c = 0%Z
  /\ ((0 <=? page_index c) && (page_index c <? page_count c))%Z = false
  /\ ~ (0 <= page_index c < page_count c)%Z
  /\ next_page c = c /\ prev_page c = c /\ clamp_page_index c = c.
Proof.
  cbv zeta. repeat split. vm_compute. intros [_ H]. discriminate H.
Qed.

(** C6, amended.  The page index stays inside the document: in a state where
    the index is inside the document the controller holds, that document
    having at least one page (and is zero when the controller holds none,
    or one without pages, which its test [self.doc] takes for none), every
    operation leads to such a state again; a new controller
    starts in one, so every sequence of operations keeps the index inside.
    [next_page] at the last index and [prev_page] at index
    zero change nothing, a successful [open] stores the document with index
    zero, and [clamp_page_index] after [close] leaves index zero. *)
Theorem page_index_invariant (c : t) (Hok : page_index_ok c) :
  (forall pdf_opener, page_index_ok (init pdf_opener))
  /\ (forall o : op, page_index_ok (run c o))
  /\ (forall ops : list op, page_index_ok (run_all c ops))
  /\ (page_index c = (page_count c - 1)%Z -> next_page c = c)
  /\ (page_index c = 0%Z -> prev_page c = c)
  /\ (forall path d, _open_pdf c path = Ok d ->
        doc (fst (open c path)) = Some d
        /\ page_index (fst (open c path)) = 0%Z)
  /\ doc (close c) = None
  /\ page_index (clamp_page_index (close c)) = 0%Z.
Proof.
  split; [exact init_page_index_ok |].
  split; [intro o; apply run_page_index_ok, Hok |].
  split; [intro ops; apply run_all_page_index_ok, Hok |].
  split.
  { intro Hlast. unfold next_page.
    destruct (Z.ltb_spec (page_index c) (page_count c - 1)); [lia |].
    rewrite andb_false_r. reflexivity. }
  split.
  { intro Hzero. unfold prev_page.
    destruct (Z.ltb_spec 0 (page_index c)); [lia |].
    rewrite andb_false_r. reflexivity. }
  split.
  { intros path d Hopen. unfold open. rewrite Hopen. split; reflexivity. }
  split; reflexivity.
Qed.

Lemma page_index_invariant_witness :
  let c := mk two_page_opener (Some (mkDocument "dummy.pdf" 2))
              (Some "dummy.pdf") 1%Z in
  page_index_ok (run c NextPage) /\ next_page c = c
  /\ page_index (fst (open c "dummy.pdf")) = 0%Z.
Proof.
  intro c.
  assert (Hok : page_index_ok c) by (vm_compute; split; [discriminate | reflexivity]).
  destruct (page_index_invariant c Hok)
    as (_ & Hrun & _ & Hnext & _ & Hopen & _).
  split; [apply Hrun |].
  split; [apply Hnext; reflexivity |].
  apply (Hopen "dummy.pdf" (mkDocument "dummy.pdf" 2)). reflexivity.
Defined.

(** [test_document_controller_navigation_and_reload], the navigation part,
    evaluated: the index after each call. *)
Example test_document_controller_navigation :
  let c0 := fst (open (init two_page_opener) "dummy.pdf") in
  let c1 := next_page c0 in
  let c2 := next_page c1 in
  let c3 := prev_page c2 in
  let c4 := prev_page c3 in
  let c5 := clamp_page_index (close c4) in
  (page_count c0, page_index c0, page_index c1, page_index c2,
   page_index c3, page_index c4, page_index c5)
  = (2, 0, 1, 1, 0, 0, 0)%Z.
Proof. reflexivity. Qed.

(** C8.  A failing opener leaves the controller as it was: [open] passes
    the error on with [doc], [current_file] and [page_index] unchanged, and
    [reload] turns the failure of the PDF library, a [RuntimeError], into a
    null result, again with the controller unchanged. *)
Theorem open_failure_keeps_state (c : t) (path : string) (e : exn)
  (Hfail : _open_pdf c path = Raise e) :
  open c path = (c, Raise e)
  /\ (is_RuntimeError e = true -> reload c path = (c, Ok None)).
Proof.
  assert (Hopen : open c path = (c, Raise e)).
  { unfold open. rewrite Hfail. reflexivity. }
  split; [exact Hopen |].
  intro Hrt. unfold reload. rewrite Hopen, Hrt. reflexivity.
Qed.

Lemma open_failure_keeps_state_witness :
  let c := mk bad_opener (Some (mkDocument "old.pdf" 3)) (Some "old.pdf") 2%Z in
  open c "x.pdf" = (c, Raise (Exn RuntimeError "fail"))
  /\ reload c "x.pdf" = (c, Ok None).
Proof.
  intro c.
  destruct (open_failure_keeps_state c "x.pdf" (Exn RuntimeError "fail")
              eq_refl) as [Hopen Hreload].
  split; [exact Hopen | apply Hreload; reflexivity].
Defined.

(** [reload] catches [RuntimeError] only: any other exception of the opener
    comes out of [reload] as it is, the controller unchanged. *)
Lemma reload_other_error_propagates (c : t) (path : string) (e : exn) :
  _open_pdf c path = Raise e -> is_RuntimeError e = false ->
  reload c path = (c, Raise e).
Proof.
  intros Hfail Hrt. unfold reload, open. rewrite Hfail, Hrt. reflexivity.
Qed.

End DocumentControllerFacts.

(** ** SignatureController *)

Section SignatureControllerFacts.

Import SignatureController.

(** C5.  [set_image] starts a fresh placement from every state: the new
    image path is recorded, the rectangle and the page index become null,
    and the controller is in the state ImageLoaded. *)
Theorem set_image_resets_placement (s : t) (path : string) :
  image_path (set_image s path) = Some path
  /\ rect (set_image s path) = None
  /\ page_index (set_image s path) = None
  /\ phase_of (set_image s path) = ImageLoaded
  /\ max_width_points (set_image s path) = max_width_points s.
Proof. repeat split. Qed.

(** [set_image] in the middle of a placement. *)
Example set_image_mid_placed :
  let s0 := set_image (init 80) "old.png" in
  let s1 := fst (place_on_page s0 10 20 0%Z (mkRect 0 0 300 300) (1, 1)
                   (100%Z, 50%Z)) in
  phase_of s1 = Placed
  /\ set_image s1 "new.png" = mk 80 (Some "new.png") None None.
Proof. split; reflexivity. Qed.

(** The rectangles that are false are the all-zero ones. *)
Lemma rect_truthy_false (r : Rect) :
  rect_truthy r = false <-> rect_eq r (mkRect 0 0 0 0).
Proof.
  unfold rect_truthy, rect_eq. rect_simpl.
  destruct (Qeq_bool_spec (x0 r) 0), (Qeq_bool_spec (y0 r) 0),
    (Qeq_bool_spec (x1 r) 0), (Qeq_bool_spec (y1 r) 0);
    cbn; split; intros; try discriminate; tauto.
Qed.

Lemma guarded_rect_none (s : t) :
  guarded_rect s = None
  <-> rect s = None \/ exists r, rect s = Some r /\ rect_truthy r = false.
Proof.
  unfold guarded_rect. destruct (rect s) as [r |].
  - destruct (rect_truthy r) eqn:E; split.
    + discriminate.
    + intros [Hn | (r' & Hr & Hf)]; [discriminate |].
      injection Hr as <-. congruence.
    + intros _. right. exists r. auto.
    + reflexivity.
  - split; auto.
Qed.

Lemma guarded_rect_some (s : t) (r : Rect) :
  rect s = Some r -> rect_truthy r = true -> guarded_rect s = Some r.
Proof. intros Hr Ht. unfold guarded_rect. rewrite Hr, Ht. reflexivity. Qed.

(** A rectangle inside the bounds is left where it is. *)
Lemma clamp_rect_within_id (R B : Rect) :
  within R B -> rect_eq (Layout.clamp_rect R B) R.
Proof. intros Hw. geometry. Qed.

(** A placement whose rectangle is all-zero: the guard [if not self.rect]
    takes it for no rectangle, so [move_to] returns null and moves
    nothing. *)
Lemma move_to_all_zero_rect_ignored :
  let r := mkRect 0 0 0 0 in
  let page := mkRect 0 0 100 100 in
  let s := mk 200 (Some "sig.png") (Some r) (Some 0%Z) in
  let moved := Layout.clamp_rect (mkRect 5 5 (5 + width r) (5 + height r)) page in
  phase_of s = Placed
  /\ move_to s 5 5 page (1, 1) = (s, None)
  /\ move_to s 5 5 page (1, 1) <> (set_rect s moved, Some moved).
Proof. repeat split. vm_compute. discriminate. Qed.

(** C7, the claim as stated, fails twice over.  A placement whose
    rectangle is all-zero is not moved; and in doubles the width is not
    preserved: [move_to] of the rectangle (10, 20, 60, 45), 50 wide, to
    canvas (141, 7) on a page of 612 by 792 with scale 0.1 stores
    (14.100000000000001, 0.7000000000000001, 64.1, 25.7), which is
    49.99999999999999 wide. *)
Lemma move_to_claim_fails :
  (let r := mkRect 0 0 0 0 in
   let page := mkRect 0 0 100 100 in
   let s := mk 200 (Some "sig.png") (Some r) (Some 0%Z) in
   let moved :=
     Layout.clamp_rect (mkRect 5 5 (5 + width r) (5 + height r)) page in
   phase_of s = Placed
   /\ move_to s 5 5 page (1, 1) = (s, None)
   /\ move_to s 5 5 page (1, 1) <> (set_rect s moved, Some moved))
  /\ (let r := FloatLayout.mkRect 10 20 60 45 in
      let page := FloatLayout.mkRect 0 0 612 792 in
      let s :=
        FloatSignatureController.mk 200 (Some "sig.png") (Some r) (Some 0%Z) in
      exists new,
        snd (FloatSignatureController.move_to s 141 7 page (0.1, 0.1)%float)
        = Some new
        /\ FloatLayout.width r = 50%float
        /\ FloatLayout.width new = 49.999999999999993%float
        /\ PrimFloat.ltb (FloatLayout.width new) (FloatLayout.width r) = true).
Proof.
  split; [exact move_to_all_zero_rect_ignored |].
  eexists. vm_compute. repeat split.
Qed.

(** C7, amended.  [move_to] returns null and leaves the controller unchanged
    when there is no rectangle or the rectangle is all-zero.  Otherwise,
    over exact arithmetic (the code's floating-point rounding aside), it
    stores and returns [clamp_rect] of the rectangle that has its top-left
    at the canvas position converted to PDF space and the width and height
    of the old one: the new rectangle has the old width and height, it is
    that rectangle itself when that lies within the page, and it lies within
    the page whenever the page is at least as large. *)
Theorem move_to_spec
  (s : t) (canvas_x canvas_y : Q) (page_rect : Rect) (page_scale : Q * Q) :
  (rect s = None -> move_to s canvas_x canvas_y page_rect page_scale = (s, None))
  /\ (forall r, rect s = Some r -> rect_truthy r = false ->
        move_to s canvas_x canvas_y page_rect page_scale = (s, None))
  /\ (forall r, rect s = Some r -> rect_truthy r = true ->
        let '(x_pdf, y_pdf) :=
          Layout.canvas_to_pdf canvas_x canvas_y page_rect page_scale in
        let target := mkRect x_pdf y_pdf (x_pdf + width r) (y_pdf + height r) in
        let new := Layout.clamp_rect target page_rect in
        move_to s canvas_x canvas_y page_rect page_scale
        = (set_rect s new, Some new)
        /\ (width new == width r /\ height new == height r)
        /\ (x_extent new == width r /\ y_extent new == height r)
        /\ (within target page_rect -> rect_eq new target)
        /\ (width r <= x_extent page_rect -> height r <= y_extent page_rect ->
            within new page_rect)).
Proof.
  split; [| split].
  - intro Hr. unfold move_to, guarded_rect. rewrite Hr. reflexivity.
  - intros r Hr Hf. unfold move_to, guarded_rect. rewrite Hr, Hf. reflexivity.
  - intros r Hr Ht. unfold Layout.canvas_to_pdf. cbv zeta.
    set (x_pdf := canvas_x * fst page_scale + x0 page_rect).
    set (y_pdf := canvas_y * snd page_scale + y0 page_rect).
    set (target := mkRect x_pdf y_pdf (x_pdf + width r) (y_pdf + height r)).
    assert (Hx : x_extent target == width r)
      by (unfold x_extent, target; rect_simpl; ring).
    assert (Hy : y_extent target == height r)
      by (unfold y_extent, target; rect_simpl; ring).
    assert (Hwr : 0 <= width r) by (unfold width, py_max; q_cases; lra).
    assert (Hhr : 0 <= height r) by (unfold height, py_max; q_cases; lra).
    split; [| split; [| split; [| split]]].
    + unfold move_to. rewrite (guarded_rect_some s r Hr Ht). reflexivity.
    + split.
      * rewrite clamp_rect_width. rewrite width_extent; [exact Hx |].
        unfold x_extent in Hx. lra.
      * rewrite clamp_rect_height. rewrite height_extent; [exact Hy |].
        unfold y_extent in Hy. lra.
    + split.
      * rewrite clamp_rect_x_extent. exact Hx.
      * rewrite clamp_rect_y_extent. exact Hy.
    + apply clamp_rect_within_id.
    + intros Hfx Hfy. apply clamp_rect_within.
      * rewrite Hx. exact Hfx.
      * rewrite Hy. exact Hfy.
Qed.

Lemma move_to_spec_witness :
  let s := mk 50 (Some "sig.png") (Some (mkRect 10 20 60 45)) (Some 0%Z) in
  let new := Layout.clamp_rect (mkRect 100 100 (100 + 50) (100 + 25))
               (mkRect 0 0 200 200) in
  move_to s 100 100 (mkRect 0 0 200 200) (1, 1) = (set_rect s new, Some new)
  /\ (width new == 50 /\ height new == 25)
  /\ within new (mkRect 0 0 200 200)
  /\ move_to (init 50) 100 100 (mkRect 0 0 200 200) (1, 1) = (init 50, None).
Proof.
  intros s new.
  destruct (move_to_spec s 100 100 (mkRect 0 0 200 200) (1, 1))
    as (_ & _ & Hplaced).
  destruct (Hplaced (mkRect 10 20 60 45) eq_refl eq_refl)
    as (Hmove & Hsize & _ & _ & Hin).
  split; [| split; [| split]].
  - vm_compute. vm_compute in Hmove. exact Hmove.
  - vm_compute. vm_compute in Hsize. exact Hsize.
  - vm_compute. vm_compute in Hin. apply Hin; discriminate.
  - apply (move_to_spec (init 50) 100 100 (mkRect 0 0 200 200) (1, 1)).
    reflexivity.
Defined.

(** [test_signature_controller_place_and_move], evaluated. *)
Example test_signature_controller_place_and_move :
  let page := mkRect 0 0 200 200 in
  let s1 := fst (place_on_page (init 50) 10 20 0%Z page (1, 1) (100%Z, 50%Z)) in
  let s2 := fst (move_to s1 100 100 page (1, 1)) in
  page_index s1 = Some 0%Z
  /\ (exists r1, rect s1 = Some r1 /\ width r1 == 50 /\ height r1 == 25)
  /\ (exists r2, rect s2 = Some r2 /\ x0 r2 == 100 /\ y0 r2 == 100).
Proof.
  split; [reflexivity |].
  split; eexists; (split; [vm_compute; reflexivity |]); vm_compute; auto.
Qed.



(** The all-zero rectangle is within reach of [resize] itself: from a
    placement in the page corner, with minimum sizes of zero, pulling the
    east and the south edge back to the corner gives it, and from then on
    neither [resize] nor [move_to] changes the placement. *)
Example resize_reaches_all_zero_rect :
  let page := mkRect 0 0 100 100 in
  let s0 := mk 200 (Some "sig.png") (Some (mkRect 0 0 10 10)) (Some 0%Z) in
  let s1 := fst (resize s0 "e" (-5) 0 page 0 0) in
  let s2 := fst (resize s1 "s" 0 (-5) page 0 0) in
  rect s2 = Some (mkRect 0 0 0 0)
  /\ resize s2 "e" 50 50 page 0 0 = (s2, None)
  /\ move_to s2 50 50 page (1, 1) = (s2, None).
Proof. repeat split. Qed.




(** [test_signature_controller_resize_clamps_min_size], evaluated. *)
Example test_signature_controller_resize_clamps_min_size :
  let s := mk 80 None (Some (mkRect 50 50 100 100)) None in
  exists r, rect (fst (resize s "w" 10 60 (mkRect 0 0 200 200) 30 20)) = Some r
            /\ rect_eq r (mkRect 10 50 100 100) /\ width r == 90.
Proof.
  eexists. split; [vm_compute; reflexivity |]. vm_compute. auto.
Qed.

End SignatureControllerFacts.

(** ** insert_image *)

Section InsertImageFacts.

Import Operations.

Context {Doc Page : Type} `{PdfDocument Doc Page}.

Variable path_exists : string -> bool.

Lemma insert_image_missing_path
  (doc : Doc) (image_path : string) (page_index : Z) (rect : option Rect) :
  path_exists image_path = false ->
  insert_image path_exists doc image_path page_index rect
  = (doc, Raise (Exn PDFOperationError
                   ("Image path " ++ image_path ++ " does not exist."))).
Proof. intro Hp. unfold insert_image. rewrite Hp. reflexivity. Qed.

Lemma insert_image_index_error
  (doc : Doc) (image_path : string) (page_index : Z) (rect : option Rect)
  (exc : exn) :
  path_exists image_path = true ->
  doc_load_page doc page_index = Raise exc -> is_IndexError exc = true ->
  insert_image path_exists doc image_path page_index rect
  = (doc, Raise (ExnFrom PDFOperationError
                   ("Page " ++ py_str_int page_index
                    ++ " is out of range for document with "
                    ++ py_str_int (doc_len doc) ++ " page(s).")
                   exc)).
Proof.
  intros Hp Hload Hidx. unfold insert_image. rewrite Hp, Hload, Hidx.
  reflexivity.
Qed.

(** The handler is [except IndexError]: an exception of any other class
    raised by [load_page] leaves [insert_image] as it is. *)
Lemma insert_image_other_error_escapes
  (doc : Doc) (image_path : string) (page_index : Z) (rect : option Rect)
  (exc : exn) :
  path_exists image_path = true ->
  doc_load_page doc page_index = Raise exc -> is_IndexError exc = false ->
  insert_image path_exists doc image_path page_index rect = (doc, Raise exc).
Proof.
  intros Hp Hload Hidx. unfold insert_image. rewrite Hp, Hload, Hidx.
  reflexivity.
Qed.

(** The wrapping works for a document that signals the fault as the test
    doubles do.  For a document whose [load_page] answers an index at or
    beyond the page count with an [IndexError], and every such index,
    [insert_image] raises a [PDFOperationError] and leaves the document as
    it was.  When
    the image file exists the error names the page index and the page
    count and carries the [IndexError] as its cause; when it does not, the
    error is the one about the missing image. *)
Theorem insert_image_page_out_of_range
  (doc : Doc) (image_path : string) (page_index : Z) (rect : option Rect) :
  (doc_len doc <= page_index)%Z ->
  load_page_raises_IndexError doc ->
  exists e : exn,
    insert_image path_exists doc image_path page_index rect = (doc, Raise e)
    /\ exn_cls e = PDFOperationError
    /\ (path_exists image_path = true ->
        exn_msg e = "Page " ++ py_str_int page_index
                    ++ " is out of range for document with "
                    ++ py_str_int (doc_len doc) ++ " page(s)."
        /\ exists cause, exn_cause e = Some cause
                         /\ doc_load_page doc page_index = Raise cause
                         /\ is_IndexError cause = true).
Proof.
  intros Hrange Hcontract.
  destruct (Hcontract page_index Hrange) as (exc & Hload & Hidx).
  destruct (path_exists image_path) eqn:Hp.
  - eexists. split; [apply insert_image_index_error; eassumption |].
    split; [reflexivity |]. intros _. split; [reflexivity |].
    exists exc. auto.
  - eexists. split; [apply insert_image_missing_path; exact Hp |].
    split; [reflexivity | discriminate].
Qed.

End InsertImageFacts.

Section InsertImageTests.

Import Operations.

(** The [DummyDoc] of the tests keeps the contract: a Python list raises
    [IndexError] for an index at or beyond its length. *)
Lemma DummyDoc_load_page_contract (d : DummyDoc) :
  load_page_raises_IndexError d.
Proof.
  intros i Hi. cbn [doc_len doc_load_page DummyDoc_PdfDocument] in *.
  unfold list_index.
  destruct (Z.ltb_spec i 0); [lia |].
  destruct (Z.ltb_spec i (Z.of_nat (List.length d))); [lia |].
  rewrite andb_false_r. eexists. split; reflexivity.
Qed.

Lemma insert_image_page_out_of_range_witness :
  exists e : exn,
    insert_image (fun _ => true) ([[]] : DummyDoc) "sig.png" 5%Z None
    = ([[]], Raise e)
    /\ exn_cls e = PDFOperationError
    /\ (true = true ->
        exn_msg e = "Page " ++ py_str_int 5
                    ++ " is out of range for document with "
                    ++ py_str_int (doc_len ([[]] : DummyDoc)) ++ " page(s)."
        /\ exists cause, exn_cause e = Some cause
                         /\ doc_load_page ([[]] : DummyDoc) 5%Z = Raise cause
                         /\ is_IndexError cause = true).
Proof.
  apply (insert_image_page_out_of_range (fun _ => true) ([[]] : DummyDoc)
           "sig.png" 5%Z None).
  - vm_compute. discriminate.
  - apply DummyDoc_load_page_contract.
Defined.

(** The document of the PDF library does not keep that contract: its
    [load_page] raises [ValueError] for an index at or beyond the page
    count. *)
Lemma FitzDoc_load_page_out_of_range (d : FitzDoc) (i : Z) :
  (doc_len d <= i)%Z ->
  doc_load_page d i = Raise (Exn ValueError "page not in document").
Proof.
  intro Hi. cbn [doc_len doc_load_page FitzDoc_PdfDocument] in *.
  unfold fitz_load_page.
  destruct (Z.leb_spec (Z.of_nat (List.length (fitz_pages d))) i);
    [reflexivity | lia].
Qed.

(** C9.  The claim fails on the code for the documents the program works
    on.  For every document of the PDF library, every index at or beyond
    its page count and an image file that exists, [insert_image] raises no
    [PDFOperationError]: the handler is [except IndexError], the library
    raises [ValueError], and that error leaves [insert_image] as it is,
    with no cause attached.  The document is left as it was. *)
Theorem insert_image_library_index_escapes
  (path_exists : string -> bool) (d : FitzDoc) (image_path : string)
  (page_index : Z) (rect : option Rect) :
  (doc_len d <= page_index)%Z ->
  path_exists image_path = true ->
  exists e : exn,
    insert_image path_exists d image_path page_index rect = (d, Raise e)
    /\ e = Exn ValueError "page not in document"
    /\ exn_cls e <> PDFOperationError
    /\ is_RuntimeError e = false
    /\ exn_cause e = None.
Proof.
  intros Hrange Hp. eexists. split.
  - unfold insert_image. rewrite Hp.
    rewrite (FitzDoc_load_page_out_of_range d page_index Hrange).
    reflexivity.
  - repeat split. discriminate.
Qed.

Lemma insert_image_library_index_escapes_witness :
  exists e : exn,
    insert_image (fun _ => true) (mkFitzDoc [[]]) "sig.png" 5%Z None
    = (mkFitzDoc [[]], Raise e)
    /\ e = Exn ValueError "page not in document"
    /\ exn_cls e <> PDFOperationError
    /\ is_RuntimeError e = false
    /\ exn_cause e = None.
Proof.
  apply (insert_image_library_index_escapes (fun _ => true) (mkFitzDoc [[]])
           "sig.png" 5%Z None).
  - vm_compute. discriminate.
  - reflexivity.
Defined.

(** [test_insert_image_wraps_page_index_errors], evaluated. *)
Example test_insert_image_wraps_page_index_errors :
  insert_image (fun _ => true) (mkOutOfRangeDoc [[]]) "sig.png" 5%Z None
  = (mkOutOfRangeDoc [[]],
     Raise (ExnFrom PDFOperationError
              "Page 5 is out of range for document with 1 page(s)."
              (Exn IndexError "page out of range"))).
Proof. reflexivity. Qed.

(** [test_insert_image_uses_custom_rect_and_returns_it] and
    [test_insert_image_defaults_rect_when_none_given], evaluated. *)
Example test_insert_image_uses_custom_rect :
  insert_image (fun _ => true) ([[]] : DummyDoc) "sig.png" 0%Z
    (Some (mkRect 10 20 30 40))
  = ([[mkCall (mkRect 10 20 30 40) "sig.png" true true]],
     Ok (mkRect 10 20 30 40)).
Proof. reflexivity. Qed.

Example test_insert_image_defaults_rect :
  insert_image (fun _ => true) ([[]] : DummyDoc) "sig.png" 0%Z None
  = ([[mkCall (mkRect 36 36 300 300) "sig.png" true true]],
     Ok (mkRect 36 36 300 300)).
Proof. reflexivity. Qed.

(** [test_insert_image_raises_for_missing_path], evaluated. *)
Example test_insert_image_raises_for_missing_path :
  insert_image (fun _ => false) ([] : DummyDoc) "/tmp/does-not-exist.png" 0%Z None
  = ([], Raise (Exn PDFOperationError
                  "Image path /tmp/does-not-exist.png does not exist.")).
Proof. reflexivity. Qed.

End InsertImageTests.

(** * Further properties of the code *)

(** ** layout.py *)

Section LayoutFacts.

Lemma Qmax_py_max (a b : Q) : Qmax a b == py_max a b.
Proof.
  unfold py_max. destruct (Qltb_spec a b) as [Hlt | Hge].
  - apply Q.max_r. apply Qlt_le_weak. exact Hlt.
  - apply Q.max_l. exact Hge.
Qed.

Lemma Qmin_py_min (a b : Q) : Qmin a b == py_min a b.
Proof.
  unfold py_min. destruct (Qltb_spec b a) as [Hlt | Hge].
  - apply Q.min_r. apply Qlt_le_weak. exact Hlt.
  - apply Q.min_l. exact Hge.
Qed.

Lemma clamp_rect_low_edges (R B : Rect) :
  x0 B <= x0 (Layout.clamp_rect R B) /\ y0 B <= y0 (Layout.clamp_rect R B).
Proof. geometry. Qed.

(** X1.  The left and the top edge of a clamped rectangle are never outside
    the bounds, whatever the sizes of the rectangle and of the bounds: the
    correction of the top-left corner is the last one made. *)
Theorem clamp_rect_top_left_inside (R B : Rect) :
  x0 B <= x0 (Layout.clamp_rect R B) /\ y0 B <= y0 (Layout.clamp_rect R B).
Proof. apply clamp_rect_low_edges. Qed.

(** X2, over exact arithmetic (the code's floating-point rounding aside).
    [clamp_rect] in closed form: the left edge of the result is [max(B.x0,
    R.x0 - max(0, R.x1 - B.x1))], the top edge [max(B.y0, R.y0 - max(0, R.y1
    - B.y1))], and the right and bottom edges follow at the extent of the
    rectangle. *)
Theorem clamp_rect_closed_form (R B : Rect) :
  let C := Layout.clamp_rect R B in
  x0 C == Qmax (x0 B) (x0 R - Qmax 0 (x1 R - x1 B))
  /\ y0 C == Qmax (y0 B) (y0 R - Qmax 0 (y1 R - y1 B))
  /\ x1 C == x0 C + (x1 R - x0 R)
  /\ y1 C == y0 C + (y1 R - y0 R).
Proof.
  intro C. subst C.
  repeat match goal with
         | |- context [Qmax ?a ?b] =>
           let H := fresh "H" in
           let E := fresh "E" in
           destruct (Q.max_spec a b) as [[H E] | [H E]];
           revert H E; generalize (Qmax a b)
         end.
  all: intros; geometry.
Qed.

(** X3, over exact arithmetic (the code's floating-point rounding aside).
    The rectangles [clamp_rect] leaves where they are: on each axis the low
    edge is not outside the bounds, and the high edge is inside the bounds
    or the low edge sits on that of the bounds (a rectangle too large for
    the bounds, already pushed to their top-left). *)
Theorem clamp_rect_fixed_points (R B : Rect) :
  rect_eq (Layout.clamp_rect R B) R
  <-> (x0 B <= x0 R /\ (x1 R <= x1 B \/ x0 R == x0 B))
      /\ (y0 B <= y0 R /\ (y1 R <= y1 B \/ y0 R == y0 B)).
Proof.
  split.
  - intros (H0 & H1 & H2 & H3).
    destruct (clamp_rect_low_edges R B) as [Hx Hy].
    rewrite H0 in Hx. rewrite H1 in Hy.
    assert (Hxx : x1 R <= x1 B \/ x0 R == x0 B).
    { destruct (Qlt_le_dec (x1 B) (x1 R)) as [Hlt | Hle]; [right | left; exact Hle].
      clear H1 H2 H3 Hy. geometry. }
    assert (Hyy : y1 R <= y1 B \/ y0 R == y0 B).
    { destruct (Qlt_le_dec (y1 B) (y1 R)) as [Hlt | Hle]; [right | left; exact Hle].
      clear H0 H2 H3 Hx Hxx. geometry. }
    tauto.
  - intros ((Hx & [Hx1 | Hx1]) & (Hy & [Hy1 | Hy1])); geometry.
Qed.

Lemma clamp_rect_x_inside_iff (R B : Rect) :
  (x0 B <= x0 (Layout.clamp_rect R B) /\ x1 (Layout.clamp_rect R B) <= x1 B)
  <-> x_extent R <= x_extent B.
Proof. split; [intros [Ha Hb] | intro He]; geometry. Qed.

Lemma clamp_rect_y_inside_iff (R B : Rect) :
  (y0 B <= y0 (Layout.clamp_rect R B) /\ y1 (Layout.clamp_rect R B) <= y1 B)
  <-> y_extent R <= y_extent B.
Proof. split; [intros [Ha Hb] | intro He]; geometry. Qed.

(** X4, over exact arithmetic (the code's floating-point rounding aside).
    The axes are clamped independently, and the result is inside the bounds
    on an axis exactly when the rectangle is no larger than the bounds on
    that axis. *)
Theorem clamp_rect_inside_iff (R B : Rect) :
  let C := Layout.clamp_rect R B in
  ((x0 B <= x0 C /\ x1 C <= x1 B) <-> x_extent R <= x_extent B)
  /\ ((y0 B <= y0 C /\ y1 C <= y1 B) <-> y_extent R <= y_extent B)
  /\ (within C B <-> x_extent R <= x_extent B /\ y_extent R <= y_extent B).
Proof.
  intro C. subst C.
  pose proof (clamp_rect_x_inside_iff R B) as Hx.
  pose proof (clamp_rect_y_inside_iff R B) as Hy.
  split; [exact Hx | split; [exact Hy |]].
  unfold within. tauto.
Qed.

End LayoutFacts.

Section ConversionFacts.

Lemma py_div_zero (a b : Q) :
  b == 0 ->
  Layout.py_div a b = Raise (Exn ZeroDivisionError "float division by zero").
Proof.
  intro Hb. unfold Layout.py_div.
  destruct (Qeq_bool_spec b 0) as [E | E]; [reflexivity | contradiction].
Qed.

Lemma pdf_rect_to_canvas_rect_ok (r page : Rect) (scale : Q * Q) :
  ~ fst scale == 0 -> ~ snd scale == 0 ->
  Layout.pdf_rect_to_canvas_rect r page scale
  = Ok ((x0 r - x0 page) / fst scale, (y0 r - y0 page) / snd scale,
        (x1 r - x0 page) / fst scale, (y1 r - y0 page) / snd scale).
Proof.
  intros Hx Hy. unfold Layout.pdf_rect_to_canvas_rect.
  rewrite !py_div_nonzero by assumption. reflexivity.
Qed.

(** X5.  The round trip the other way: for scales that are not zero,
    [pdf_rect_to_canvas_rect] succeeds, and [canvas_to_pdf] takes the two
    canvas corners it returns back to the corners of the PDF rectangle. *)
Theorem pdf_canvas_round_trip (r page_rect : Rect) (page_scale : Q * Q) :
  ~ fst page_scale == 0 -> ~ snd page_scale == 0 ->
  exists cx0 cy0 cx1 cy1,
    Layout.pdf_rect_to_canvas_rect r page_rect page_scale
    = Ok (cx0, cy0, cx1, cy1)
    /\ rect_eq (canvas_rect_to_pdf (mkRect cx0 cy0 cx1 cy1) page_rect page_scale)
               r.
Proof.
  intros Hx Hy. do 4 eexists.
  split; [apply pdf_rect_to_canvas_rect_ok; assumption |].
  unfold rect_eq, canvas_rect_to_pdf, Layout.canvas_to_pdf. rect_simpl.
  repeat split; field; assumption.
Qed.

Lemma pdf_canvas_round_trip_witness :
  exists cx0 cy0 cx1 cy1,
    Layout.pdf_rect_to_canvas_rect (mkRect 20 10 40 20) (mkRect 0 0 200 100)
      (2, 2) = Ok (cx0, cy0, cx1, cy1)
    /\ rect_eq (canvas_rect_to_pdf (mkRect cx0 cy0 cx1 cy1)
                  (mkRect 0 0 200 100) (2, 2))
               (mkRect 20 10 40 20).
Proof.
  apply (pdf_canvas_round_trip (mkRect 20 10 40 20) (mkRect 0 0 200 100) (2, 2));
    vm_compute; discriminate.
Defined.

Lemma pdf_rect_to_canvas_rect_zero (r page : Rect) (scale : Q * Q) :
  fst scale == 0 \/ snd scale == 0 ->
  Layout.pdf_rect_to_canvas_rect r page scale
  = Raise (Exn ZeroDivisionError "float division by zero").
Proof.
  intros Hz. unfold Layout.pdf_rect_to_canvas_rect.
  destruct (Qeq_bool_spec (fst scale) 0) as [Ex | Ex].
  - rewrite (py_div_zero _ _ Ex). reflexivity.
  - destruct Hz as [Hz | Hz]; [contradiction |].
    rewrite (py_div_nonzero _ _ Ex), (py_div_zero _ _ Hz). reflexivity.
Qed.

(** X6.  [pdf_rect_to_canvas_rect] raises exactly when a component of the
    scale is zero, and then it is a [ZeroDivisionError], for every
    rectangle and page. *)
Theorem pdf_rect_to_canvas_rect_raises_iff
  (r page_rect : Rect) (page_scale : Q * Q) :
  ((fst page_scale == 0 \/ snd page_scale == 0)
   <-> Layout.pdf_rect_to_canvas_rect r page_rect page_scale
       = Raise (Exn ZeroDivisionError "float division by zero"))
  /\ ((~ fst page_scale == 0 /\ ~ snd page_scale == 0)
      <-> exists c, Layout.pdf_rect_to_canvas_rect r page_rect page_scale = Ok c).
Proof.
  destruct (Qeq_bool_spec (fst page_scale) 0) as [Ex | Ex];
    destruct (Qeq_bool_spec (snd page_scale) 0) as [Ey | Ey].
  - assert (Hr : Layout.pdf_rect_to_canvas_rect r page_rect page_scale
                 = Raise (Exn ZeroDivisionError "float division by zero")).
    { unfold Layout.pdf_rect_to_canvas_rect.
      rewrite (py_div_zero _ _ Ex). reflexivity. }
    rewrite Hr. split; split; try tauto.
    intros [c Hc]. discriminate.
  - assert (Hr : Layout.pdf_rect_to_canvas_rect r page_rect page_scale
                 = Raise (Exn ZeroDivisionError "float division by zero")).
    { unfold Layout.pdf_rect_to_canvas_rect.
      rewrite (py_div_zero _ _ Ex). reflexivity. }
    rewrite Hr. split; split; try tauto.
    intros [c Hc]. discriminate.
  - assert (Hr : Layout.pdf_rect_to_canvas_rect r page_rect page_scale
                 = Raise (Exn ZeroDivisionError "float division by zero")).
    { unfold Layout.pdf_rect_to_canvas_rect.
      rewrite (py_div_nonzero _ _ Ex), (py_div_zero _ _ Ey). reflexivity. }
    rewrite Hr. split; split; try tauto.
    intros [c Hc]. discriminate.
  - rewrite (pdf_rect_to_canvas_rect_ok r page_rect page_scale Ex Ey).
    split; split; try tauto.
    + discriminate.
    + intros _. eexists. reflexivity.
Qed.

(** X7, over exact arithmetic (the code's floating-point rounding aside).
    With positive scales the conversion to canvas space keeps the
    orientation of a rectangle and divides its extents by the scale: the
    canvas rectangle has [x0 <= x1] exactly when the PDF rectangle has, and
    its width times the horizontal scale is the PDF width; likewise
    vertically. *)
Theorem pdf_rect_to_canvas_rect_positive_scale
  (r page_rect : Rect) (page_scale : Q * Q) :
  0 < fst page_scale -> 0 < snd page_scale ->
  exists cx0 cy0 cx1 cy1,
    Layout.pdf_rect_to_canvas_rect r page_rect page_scale
    = Ok (cx0, cy0, cx1, cy1)
    /\ (cx0 <= cx1 <-> x0 r <= x1 r)
    /\ (cy0 <= cy1 <-> y0 r <= y1 r)
    /\ (cx1 - cx0) * fst page_scale == x_extent r
    /\ (cy1 - cy0) * snd page_scale == y_extent r.
Proof.
  intros Hx Hy.
  assert (Hx' : ~ fst page_scale == 0) by lra.
  assert (Hy' : ~ snd page_scale == 0) by lra.
  do 4 eexists.
  split; [apply pdf_rect_to_canvas_rect_ok; assumption |].
  assert (Ex : ((x1 r - x0 page_rect) / fst page_scale
                - (x0 r - x0 page_rect) / fst page_scale) * fst page_scale
               == x_extent r)
    by (unfold x_extent; field; assumption).
  assert (Ey : ((y1 r - y0 page_rect) / snd page_scale
                - (y0 r - y0 page_rect) / snd page_scale) * snd page_scale
               == y_extent r)
    by (unfold y_extent; field; assumption).
  split; [| split; [| split; [exact Ex | exact Ey]]].
  - revert Ex. unfold x_extent.
    generalize ((x1 r - x0 page_rect) / fst page_scale)
               ((x0 r - x0 page_rect) / fst page_scale).
    intros a b Ex. split; intro H; nra.
  - revert Ey. unfold y_extent.
    generalize ((y1 r - y0 page_rect) / snd page_scale)
               ((y0 r - y0 page_rect) / snd page_scale).
    intros a b Ey. split; intro H; nra.
Qed.

Lemma pdf_rect_to_canvas_rect_positive_scale_witness :
  exists cx0 cy0 cx1 cy1,
    Layout.pdf_rect_to_canvas_rect (mkRect 20 10 40 20) (mkRect 0 0 200 100)
      (2, 2) = Ok (cx0, cy0, cx1, cy1)
    /\ (cx0 <= cx1 <-> 20 <= 40)
    /\ (cy0 <= cy1 <-> 10 <= 20)
    /\ (cx1 - cx0) * 2 == x_extent (mkRect 20 10 40 20)
    /\ (cy1 - cy0) * 2 == y_extent (mkRect 20 10 40 20).
Proof.
  apply (pdf_rect_to_canvas_rect_positive_scale (mkRect 20 10 40 20)
           (mkRect 0 0 200 100) (2, 2)); vm_compute; reflexivity.
Defined.

End ConversionFacts.

Section NewSignatureRectFacts.

(** A rectangle with an extent that is not zero is true. *)
Lemma rect_truthy_x_extent (r : Rect) : ~ x_extent r == 0 -> rect_truthy r = true.
Proof.
  intro Hne. destruct (rect_truthy r) eqn:E; [reflexivity |].
  apply rect_truthy_false in E. destruct E as (E0 & _ & E1 & _).
  exfalso. apply Hne. unfold x_extent. rect_simpl. rewrite E0, E1. reflexivity.
Qed.

Lemma rect_truthy_y_extent (r : Rect) : ~ y_extent r == 0 -> rect_truthy r = true.
Proof.
  intro Hne. destruct (rect_truthy r) eqn:E; [reflexivity |].
  apply rect_truthy_false in E. destruct E as (_ & E0 & _ & E1).
  exfalso. apply Hne. unfold y_extent. rect_simpl. rewrite E0, E1. reflexivity.
Qed.


(** X8, over exact arithmetic (the code's floating-point rounding aside).
    Whatever the click, page, scale, image and cap, a new signature
    rectangle is at least 10 units wide and at most [max(10, max_width)],
    its top-left corner is not outside the page's top-left, and it is never
    the all-zero rectangle, so that the controllers' guard [if not
    self.rect] lets it pass. *)
Theorem new_signature_rect_bounds
  (cx cy : Q) (page : Rect) (scale : Q * Q) (img : Z * Z) (maxw : Q) :
  let r := Layout.new_signature_rect cx cy page scale img maxw in
  (10 <= x_extent r /\ x_extent r <= Qmax 10 maxw)
  /\ (x0 page <= x0 r /\ y0 page <= y0 r)
  /\ rect_truthy r = true.
Proof.
  intro r.
  destruct (new_signature_rect_extent cx cy page scale img maxw) as [Hw _].
  cbv zeta in Hw. fold r in Hw.
  assert (H10 : 10 <= x_extent r).
  { rewrite Hw. apply signature_width_at_least_10. }
  split; [split; [exact H10 |] | split].
  - rewrite Hw, Qmax_py_max. unfold py_max, py_min. q_cases; lra.
  - unfold r. rewrite new_signature_rect_unfold. cbv zeta.
    apply clamp_rect_low_edges.
  - apply rect_truthy_x_extent. lra.
Qed.

(** X9, over exact arithmetic (the code's floating-point rounding aside).
    On a page with [x0 <= x1] that is at least 10 units wide, a new
    signature rectangle is horizontally inside the page for every click and
    every cap; vertically it is inside exactly when its height, the width
    times the aspect ratio, is at most the page height. *)
Theorem new_signature_rect_inside_page
  (cx cy : Q) (page : Rect) (scale : Q * Q) (img : Z * Z) (maxw : Q) :
  x0 page <= x1 page -> 10 <= width page ->
  let r := Layout.new_signature_rect cx cy page scale img maxw in
  let w := py_max 10 (py_min maxw (width page)) in
  (x0 page <= x0 r /\ x1 r <= x1 page)
  /\ ((y0 page <= y0 r /\ y1 r <= y1 page)
      <-> w * Layout.aspect_of img <= y_extent page).
Proof.
  intros Hvalid Hwide r w.
  unfold r. rewrite new_signature_rect_unfold. cbv zeta. fold w.
  set (x_pdf := fst (Layout.canvas_to_pdf cx cy page scale)).
  set (y_pdf := snd (Layout.canvas_to_pdf cx cy page scale)).
  set (target := mkRect x_pdf y_pdf (x_pdf + w) (y_pdf + w * Layout.aspect_of img)).
  pose proof (clamp_rect_x_inside_iff target page) as Hx.
  pose proof (clamp_rect_y_inside_iff target page) as Hy.
  split.
  - apply Hx. unfold x_extent at 1, target. rect_simpl.
    pose proof (width_extent page Hvalid) as Hpw.
    assert (Hw : w <= x_extent page).
    { unfold w. revert Hwide Hpw. generalize (width page). intros pw Hwide Hpw.
      unfold py_max, py_min. q_cases; lra. }
    lra.
  - rewrite Hy. unfold y_extent at 1, target. rect_simpl.
    split; intro H; lra.
Qed.

End NewSignatureRectFacts.

Section NewSignatureRectPlacement.

Lemma new_signature_rect_inside_page_witness :
  let r := Layout.new_signature_rect 290 10 (mkRect 0 0 300 20) (1, 1)
             (100%Z, 50%Z) 80 in
  (0 <= x0 r /\ x1 r <= 300)
  /\ ((0 <= y0 r /\ y1 r <= 20)
      <-> py_max 10 (py_min 80 (width (mkRect 0 0 300 20)))
          * Layout.aspect_of (100%Z, 50%Z) <= y_extent (mkRect 0 0 300 20)).
Proof.
  apply (new_signature_rect_inside_page 290 10 (mkRect 0 0 300 20) (1, 1)
           (100%Z, 50%Z) 80); vm_compute; discriminate.
Defined.

(** X10.  A click with room to its right and below places the signature
    with its top-left corner at the click: when the rectangle of the
    signature's size anchored at the click point in PDF space lies within
    the page, it is the result. *)
Theorem new_signature_rect_anchored_at_click
  (cx cy : Q) (page : Rect) (scale : Q * Q) (img : Z * Z) (maxw : Q) :
  let w := py_max 10 (py_min maxw (width page)) in
  let h := w * Layout.aspect_of img in
  let x_pdf := cx * fst scale + x0 page in
  let y_pdf := cy * snd scale + y0 page in
  x0 page <= x_pdf -> y0 page <= y_pdf ->
  x_pdf + w <= x1 page -> y_pdf + h <= y1 page ->
  rect_eq (Layout.new_signature_rect cx cy page scale img maxw)
          (mkRect x_pdf y_pdf (x_pdf + w) (y_pdf + h)).
Proof.
  intros w h x_pdf y_pdf H0 H1 H2 H3.
  rewrite new_signature_rect_unfold. cbv zeta.
  apply clamp_rect_within_id. unfold within, Layout.canvas_to_pdf.
  rect_simpl. fold w x_pdf y_pdf. fold h. tauto.
Qed.

Lemma new_signature_rect_anchored_at_click_witness :
  rect_eq (Layout.new_signature_rect 10 20 (mkRect 0 0 300 300) (1, 1)
             (100%Z, 50%Z) 80)
          (mkRect (10 * 1 + 0) (20 * 1 + 0)
             (10 * 1 + 0 + py_max 10 (py_min 80 (width (mkRect 0 0 300 300))))
             (20 * 1 + 0
              + py_max 10 (py_min 80 (width (mkRect 0 0 300 300)))
                * Layout.aspect_of (100%Z, 50%Z))).
Proof.
  apply (new_signature_rect_anchored_at_click 10 20 (mkRect 0 0 300 300) (1, 1)
           (100%Z, 50%Z) 80); vm_compute; discriminate.
Defined.

End NewSignatureRectPlacement.

(** ** controllers.py: SignatureController, further *)

Section SignatureControllerMore.

Import SignatureController.

Lemma move_to_some (s : t) (r : Rect) (cx cy : Q) (page : Rect) (scale : Q * Q) :
  guarded_rect s = Some r ->
  move_to s cx cy page scale
  = (let x_pdf := cx * fst scale + x0 page in
     let y_pdf := cy * snd scale + y0 page in
     let new := Layout.clamp_rect
                  (mkRect x_pdf y_pdf (x_pdf + width r) (y_pdf + height r))
                  page in
     (set_rect s new, Some new)).
Proof. intro Hg. unfold move_to. rewrite Hg. reflexivity. Qed.

Lemma resize_some (s : t) (r : Rect) (handle : string) (px py : Q)
  (page : Rect) (mw mh : Q) :
  guarded_rect s = Some r ->
  resize s handle px py page mw mh
  = (let new := Layout.clamp_rect (resize_edge handle px py mw mh r) page in
     (set_rect s new, Some new)).
Proof. intro Hg. unfold resize. rewrite Hg. reflexivity. Qed.


Lemma width_nonneg (r : Rect) : 0 <= width r.
Proof. unfold width, py_max. q_cases; lra. Qed.

Lemma height_nonneg (r : Rect) : 0 <= height r.
Proof. unfold height, py_max. q_cases; lra. Qed.

Lemma width_rect_eq (r r' : Rect) : rect_eq r r' -> width r == width r'.
Proof. intros (H0 & H1 & H2 & H3). unfold width, py_max. q_cases; lra. Qed.

Lemma height_rect_eq (r r' : Rect) : rect_eq r r' -> height r == height r'.
Proof. intros (H0 & H1 & H2 & H3). unfold height, py_max. q_cases; lra. Qed.

(** The rectangle [move_to] stores is true when the old one has a positive
    width or height. *)
Lemma moved_rect_truthy (r : Rect) (x_pdf y_pdf : Q) (page : Rect) :
  0 < width r \/ 0 < height r ->
  rect_truthy
    (Layout.clamp_rect (mkRect x_pdf y_pdf (x_pdf + width r) (y_pdf + height r))
       page) = true.
Proof.
  intros [Hw | Hh].
  - apply rect_truthy_x_extent. rewrite clamp_rect_x_extent.
    unfold x_extent. rect_simpl. lra.
  - apply rect_truthy_y_extent. rewrite clamp_rect_y_extent.
    unfold y_extent. rect_simpl. lra.
Qed.

(** X12, over exact arithmetic (the code's floating-point rounding aside).
    Moving twice to the same position is moving once: for a placement with a
    positive width or height, a second [move_to] with the same arguments
    returns a rectangle with the same coordinates as the first. *)
Theorem move_to_idempotent
  (s : t) (r : Rect) (cx cy : Q) (page : Rect) (scale : Q * Q) :
  rect s = Some r -> (0 < width r \/ 0 < height r) ->
  exists m1 m2,
    move_to s cx cy page scale = (set_rect s m1, Some m1)
    /\ move_to (set_rect s m1) cx cy page scale
       = (set_rect (set_rect s m1) m2, Some m2)
    /\ rect_eq m2 m1.
Proof.
  intros Hr Hpos.
  assert (Ht : rect_truthy r = true).
  { destruct Hpos as [Hw | Hh].
    - apply rect_truthy_x_extent. unfold width, x_extent, py_max in *.
      q_cases; lra.
    - apply rect_truthy_y_extent. unfold height, y_extent, py_max in *.
      q_cases; lra. }
  pose proof (guarded_rect_some s r Hr Ht) as Hg.
  set (x_pdf := cx * fst scale + x0 page).
  set (y_pdf := cy * snd scale + y0 page).
  set (m1 := Layout.clamp_rect
               (mkRect x_pdf y_pdf (x_pdf + width r) (y_pdf + height r)) page).
  assert (Ht1 : rect_truthy m1 = true) by (apply moved_rect_truthy; exact Hpos).
  assert (Hg1 : guarded_rect (set_rect s m1) = Some m1).
  { apply guarded_rect_some; [reflexivity | exact Ht1]. }
  exists m1.
  exists (Layout.clamp_rect
            (mkRect x_pdf y_pdf (x_pdf + width m1) (y_pdf + height m1)) page).
  split; [rewrite (move_to_some _ _ _ _ _ _ Hg); reflexivity |].
  split; [rewrite (move_to_some _ _ _ _ _ _ Hg1); reflexivity |].
  assert (Hw : width m1 == width r).
  { unfold m1. rewrite clamp_rect_width.
    rewrite width_extent; [unfold x_extent; rect_simpl; ring |].
    rect_simpl. pose proof (width_nonneg r). lra. }
  assert (Hh : height m1 == height r).
  { unfold m1. rewrite clamp_rect_height.
    rewrite height_extent; [unfold y_extent; rect_simpl; ring |].
    rect_simpl. pose proof (height_nonneg r). lra. }
  unfold m1 at 3. apply clamp_rect_rect_eq.
  - unfold rect_eq. rect_simpl. repeat split; lra.
  - unfold rect_eq. repeat split; reflexivity.
Qed.

Lemma move_to_idempotent_witness :
  exists m1 m2,
    let s := mk 50 (Some "sig.png") (Some (mkRect 10 20 60 45)) (Some 0%Z) in
    move_to s 180 190 (mkRect 0 0 200 200) (1, 1) = (set_rect s m1, Some m1)
    /\ move_to (set_rect s m1) 180 190 (mkRect 0 0 200 200) (1, 1)
       = (set_rect (set_rect s m1) m2, Some m2)
    /\ rect_eq m2 m1.
Proof.
  apply (move_to_idempotent
           (mk 50 (Some "sig.png") (Some (mkRect 10 20 60 45)) (Some 0%Z))
           (mkRect 10 20 60 45) 180 190 (mkRect 0 0 200 200) (1, 1));
    [reflexivity | left; vm_compute; reflexivity].
Defined.

(** A zero-size placement shows why the size matters: moved to the page
    origin it becomes the all-zero rectangle, and the next [move_to]
    returns null. *)
Example move_to_zero_size_sticks :
  let s := mk 50 (Some "sig.png") (Some (mkRect 3 3 3 3)) (Some 0%Z) in
  let s1 := fst (move_to s 0 0 (mkRect 0 0 200 200) (1, 1)) in
  rect s1 = Some (mkRect 0 0 0 0)
  /\ move_to s1 7 7 (mkRect 0 0 200 200) (1, 1) = (s1, None).
Proof. split; reflexivity. Qed.

End SignatureControllerMore.

Section HitTest.

Import SignatureController.

Lemma div_le_iff (a s c : Q) : 0 < s -> (a / s <= c <-> a <= c * s).
Proof.
  intro Hs. assert (E : (a / s) * s == a) by (field; lra).
  revert E. generalize (a / s). intros q E. split; intro H; nra.
Qed.

Lemma le_div_iff (a s c : Q) : 0 < s -> (c <= a / s <-> c * s <= a).
Proof.
  intro Hs. assert (E : (a / s) * s == a) by (field; lra).
  revert E. generalize (a / s). intros q E. split; intro H; nra.
Qed.

Lemma in_canvas_rect_contains (r pr : Rect) (scale : Q * Q) (x y : Q) :
  0 < fst scale -> 0 < snd scale ->
  Gui.in_canvas_rect
    ((x0 r - x0 pr) / fst scale, (y0 r - y0 pr) / snd scale,
     (x1 r - x0 pr) / fst scale, (y1 r - y0 pr) / snd scale) x y = true
  <-> contains r (x * fst scale + x0 pr) (y * snd scale + y0 pr).
Proof.
  intros Hx Hy. unfold Gui.in_canvas_rect, contains.
  rewrite !andb_true_iff, !Qle_bool_iff.
  rewrite !div_le_iff, !le_div_iff by assumption.
  split; intros [[H1 H2] [H3 H4]]; repeat split; lra.
Qed.

Lemma point_in_signature_positive
  (s : SignatureController.t) (r pr : Rect) (scale : Q * Q) (x y : Q) :
  SignatureController.guarded_rect s = Some r ->
  0 < fst scale -> 0 < snd scale ->
  SignatureController.point_in_signature s x y pr scale
  = Ok (Gui.in_canvas_rect
          ((x0 r - x0 pr) / fst scale, (y0 r - y0 pr) / snd scale,
           (x1 r - x0 pr) / fst scale, (y1 r - y0 pr) / snd scale) x y).
Proof.
  intros Hg Hx Hy. unfold SignatureController.point_in_signature.
  rewrite Hg, pdf_rect_to_canvas_rect_ok by lra. reflexivity.
Qed.

(** X13, over exact arithmetic (the code's floating-point rounding aside).
    With positive scales the hit test agrees with the conversion to PDF
    space: [point_in_signature] answers true exactly when the canvas point,
    taken to PDF space by [canvas_to_pdf], lies in the placement rectangle,
    edges included. *)
Theorem point_in_signature_iff_contains
  (s : t) (r : Rect) (cx cy : Q) (page : Rect) (scale : Q * Q) :
  guarded_rect s = Some r -> 0 < fst scale -> 0 < snd scale ->
  exists b : bool,
    point_in_signature s cx cy page scale = Ok b
    /\ (b = true
        <-> contains r (fst (Layout.canvas_to_pdf cx cy page scale))
                       (snd (Layout.canvas_to_pdf cx cy page scale))).
Proof.
  intros Hg Hx Hy.
  unfold point_in_signature. rewrite Hg.
  rewrite pdf_rect_to_canvas_rect_ok by lra.
  eexists. split; [reflexivity |].
  rewrite !andb_true_iff, !Qle_bool_iff.
  unfold contains, Layout.canvas_to_pdf. cbn [fst snd].
  rewrite !div_le_iff, !le_div_iff by assumption.
  split; intros [[H1 H2] [H3 H4]]; repeat split; lra.
Qed.

Lemma point_in_signature_iff_contains_witness :
  exists b : bool,
    point_in_signature
      (mk 50 (Some "sig.png") (Some (mkRect 10 20 60 45)) (Some 0%Z))
      15 15 (mkRect 0 0 200 200) (2, 2) = Ok b
    /\ (b = true
        <-> contains (mkRect 10 20 60 45)
              (fst (Layout.canvas_to_pdf 15 15 (mkRect 0 0 200 200) (2, 2)))
              (snd (Layout.canvas_to_pdf 15 15 (mkRect 0 0 200 200) (2, 2)))).
Proof.
  apply (point_in_signature_iff_contains
           (mk 50 (Some "sig.png") (Some (mkRect 10 20 60 45)) (Some 0%Z))
           (mkRect 10 20 60 45) 15 15 (mkRect 0 0 200 200) (2, 2));
    reflexivity.
Defined.

(** In doubles the two sides can part at an edge.  The canvas point 3 at
    scale 0.1 is taken by [canvas_to_pdf] to 0.30000000000000004, the left
    edge of the rectangle below, and so lies in the rectangle; the hit
    test divides that edge by the scale, gets 3.0000000000000004, and
    finds the point 3 to the left of it. *)
Example hit_test_rounding_at_edge :
  let page := FloatLayout.mkRect 0 0 612 792 in
  let r := FloatLayout.mkRect 0.30000000000000004 0 10 10 in
  fst (FloatLayout.canvas_to_pdf 3 3 page (0.1, 0.1)%float) = FloatLayout.x0 r
  /\ exists cx0 cy0 cx1 cy1,
       FloatLayout.pdf_rect_to_canvas_rect r page (0.1, 0.1)%float
       = Ok (cx0, cy0, cx1, cy1)
       /\ cx0 = 3.0000000000000004%float
       /\ PrimFloat.leb cx0 3 = false.
Proof. split; [| do 4 eexists]; vm_compute; repeat split. Qed.

(** X14.  The edges of the hit test: without a placement rectangle (none,
    or the all-zero one) [point_in_signature] is false for every point,
    page and scale and never raises; with one, a scale with a zero
    component makes it raise [ZeroDivisionError]. *)
Theorem point_in_signature_edges
  (s : t) (cx cy : Q) (page : Rect) (scale : Q * Q) :
  (guarded_rect s = None -> point_in_signature s cx cy page scale = Ok false)
  /\ (guarded_rect s <> None -> (fst scale == 0 \/ snd scale == 0) ->
      point_in_signature s cx cy page scale
      = Raise (Exn ZeroDivisionError "float division by zero")).
Proof.
  split.
  - intro Hg. unfold point_in_signature. rewrite Hg. reflexivity.
  - intros Hg Hz. unfold point_in_signature.
    destruct (guarded_rect s) as [r |]; [| contradiction].
    rewrite (pdf_rect_to_canvas_rect_zero r page scale Hz). reflexivity.
Qed.

Lemma point_in_signature_edges_witness :
  point_in_signature (init 200) 5 5 (mkRect 0 0 100 100) (0, 0) = Ok false
  /\ point_in_signature
       (mk 50 (Some "sig.png") (Some (mkRect 10 20 60 45)) (Some 0%Z))
       5 5 (mkRect 0 0 100 100) (1, 0)
     = Raise (Exn ZeroDivisionError "float division by zero").
Proof.
  split.
  - apply (point_in_signature_edges (init 200) 5 5 (mkRect 0 0 100 100) (0, 0)).
    reflexivity.
  - apply (point_in_signature_edges
             (mk 50 (Some "sig.png") (Some (mkRect 10 20 60 45)) (Some 0%Z))
             5 5 (mkRect 0 0 100 100) (1, 0)).
    + discriminate.
    + right. reflexivity.
Defined.

(** X15, over exact arithmetic (the code's floating-point rounding aside).
    The point a signature was moved to hits it: after [move_to] with
    positive scales, for a placement with a positive width or height whose
    moved rectangle fits the page at that position, [point_in_signature] at
    the same canvas point is true. *)
Theorem move_to_then_hit
  (s : t) (r : Rect) (cx cy : Q) (page : Rect) (scale : Q * Q) :
  rect s = Some r -> (0 < width r \/ 0 < height r) ->
  0 < fst scale -> 0 < snd scale ->
  within (mkRect (cx * fst scale + x0 page) (cy * snd scale + y0 page)
            (cx * fst scale + x0 page + width r)
            (cy * snd scale + y0 page + height r)) page ->
  point_in_signature (fst (move_to s cx cy page scale)) cx cy page scale
  = Ok true.
Proof.
  intros Hr Hpos Hx Hy Hin.
  assert (Ht : rect_truthy r = true).
  { destruct Hpos as [Hw | Hh].
    - apply rect_truthy_x_extent. unfold width, x_extent, py_max in *.
      q_cases; lra.
    - apply rect_truthy_y_extent. unfold height, y_extent, py_max in *.
      q_cases; lra. }
  rewrite (move_to_some s r cx cy page scale (guarded_rect_some s r Hr Ht)).
  cbv zeta. cbn [fst].
  set (x_pdf := cx * fst scale + x0 page) in *.
  set (y_pdf := cy * snd scale + y0 page) in *.
  set (target := mkRect x_pdf y_pdf (x_pdf + width r) (y_pdf + height r)) in *.
  set (m := Layout.clamp_rect target page).
  assert (Htm : rect_truthy m = true) by (apply moved_rect_truthy; exact Hpos).
  assert (Hg : guarded_rect (set_rect s m) = Some m).
  { apply guarded_rect_some; [reflexivity | exact Htm]. }
  rewrite (point_in_signature_positive _ m page _ _ _ Hg Hx Hy). f_equal.
  apply (in_canvas_rect_contains m page scale cx cy Hx Hy).
  destruct (clamp_rect_within_id target page Hin) as (E0 & E1 & E2 & E3).
  fold m in E0, E1, E2, E3. unfold target in E0, E1, E2, E3.
  rect_simpl.
  pose proof (width_nonneg r). pose proof (height_nonneg r).
  unfold contains, Layout.canvas_to_pdf. cbn [fst snd].
  fold x_pdf y_pdf. repeat split; lra.
Qed.

Lemma move_to_then_hit_witness :
  point_in_signature
    (fst (move_to (mk 50 (Some "sig.png") (Some (mkRect 10 20 60 45)) (Some 0%Z))
            100 100 (mkRect 0 0 200 200) (1, 1)))
    100 100 (mkRect 0 0 200 200) (1, 1)
  = Ok true.
Proof.
  apply (move_to_then_hit
           (mk 50 (Some "sig.png") (Some (mkRect 10 20 60 45)) (Some 0%Z))
           (mkRect 10 20 60 45) 100 100 (mkRect 0 0 200 200) (1, 1)).
  - reflexivity.
  - left. vm_compute. reflexivity.
  - reflexivity.
  - reflexivity.
  - vm_compute. repeat split; discriminate.
Defined.

End HitTest.

Section ResizeFacts.

Import SignatureController.






(** A handle other than [n], [s], [w] and [e] is no error: [resize]
    then only clamps the rectangle to the page, and leaves a rectangle that
    is within the page as it is. *)
Theorem resize_unknown_handle
  (s : t) (r : Rect) (handle : string) (pdf_x pdf_y : Q) (page : Rect)
  (min_width min_height : Q) :
  guarded_rect s = Some r ->
  handle <> "n" -> handle <> "s" -> handle <> "w" -> handle <> "e" ->
  resize s handle pdf_x pdf_y page min_width min_height
  = (set_rect s (Layout.clamp_rect r page), Some (Layout.clamp_rect r page))
  /\ (within r page -> rect_eq (Layout.clamp_rect r page) r).
Proof.
  intros Hg Hn Hs Hw He.
  rewrite (resize_some _ _ _ _ _ _ _ _ Hg). cbv zeta. unfold resize_edge.
  apply String.eqb_neq in Hn, Hs, Hw, He. rewrite Hn, Hs, Hw, He.
  split; [reflexivity | apply clamp_rect_within_id].
Qed.

Lemma resize_unknown_handle_witness :
  let s := mk 80 None (Some (mkRect 50 50 100 100)) None in
  resize s "ne" 10 60 (mkRect 0 0 200 200) 30 20
  = (set_rect s (Layout.clamp_rect (mkRect 50 50 100 100) (mkRect 0 0 200 200)),
     Some (Layout.clamp_rect (mkRect 50 50 100 100) (mkRect 0 0 200 200)))
  /\ (within (mkRect 50 50 100 100) (mkRect 0 0 200 200) ->
      rect_eq (Layout.clamp_rect (mkRect 50 50 100 100) (mkRect 0 0 200 200))
              (mkRect 50 50 100 100)).
Proof.
  intro s.
  apply (resize_unknown_handle s (mkRect 50 50 100 100) "ne" 10 60
           (mkRect 0 0 200 200) 30 20); [reflexivity | | | |]; discriminate.
Defined.

(** After [reset] and after [set_image] there is nothing to move,
    resize or hit: [move_to] and [resize] return null and change nothing,
    and [point_in_signature] is false, for all their arguments. *)
Theorem no_placement_after_reset_or_set_image
  (s : t) (path : string) (cx cy : Q) (page : Rect) (scale : Q * Q)
  (handle : string) (mw mh : Q) :
  (move_to (reset s) cx cy page scale = (reset s, None)
   /\ resize (reset s) handle cx cy page mw mh = (reset s, None)
   /\ point_in_signature (reset s) cx cy page scale = Ok false
   /\ phase_of (reset s) = Unset)
  /\ (move_to (set_image s path) cx cy page scale = (set_image s path, None)
      /\ resize (set_image s path) handle cx cy page mw mh
         = (set_image s path, None)
      /\ point_in_signature (set_image s path) cx cy page scale = Ok false).
Proof. repeat split. Qed.

End ResizeFacts.

(** ** controllers.py: DocumentController, further *)

Section DocumentControllerMore.

Import DocumentController.

Lemma set_page_index_same (c : t) : set_page_index c (page_index c) = c.
Proof. destruct c. reflexivity. Qed.

Lemma next_page_step (c : t) :
  doc_truthy c = true -> (page_index c < page_count c - 1)%Z ->
  next_page c = set_page_index c (page_index c + 1)%Z.
Proof.
  intros Ht Hlt. unfold next_page. rewrite Ht.
  destruct (Z.ltb_spec (page_index c) (page_count c - 1)); [reflexivity | lia].
Qed.

Lemma prev_page_step (c : t) :
  doc_truthy c = true -> (0 < page_index c)%Z ->
  prev_page c = set_page_index c (page_index c - 1)%Z.
Proof.
  intros Ht Hlt. unfold prev_page. rewrite Ht.
  destruct (Z.ltb_spec 0 (page_index c)); [reflexivity | lia].
Qed.

Lemma page_index_ok_truthy (c : t) :
  page_index_ok c -> doc_truthy c = true ->
  (0 <= page_index c < page_count c)%Z.
Proof. unfold page_index_ok. intros Hok Ht. rewrite Ht in Hok. exact Hok. Qed.

Lemma page_index_ok_falsy (c : t) :
  page_index_ok c -> doc_truthy c = false ->
  page_index c = 0%Z /\ page_count c = 0%Z.
Proof.
  unfold page_index_ok. intros Hok Ht. rewrite Ht in Hok. split; [exact Hok |].
  unfold page_count. rewrite Ht. destruct (doc c); reflexivity.
Qed.

(** X19.  [next_page] and [prev_page] undo each other: in a state with the
    index inside the document, [prev_page] after [next_page] gives the
    state back unless the index was the last one, and [next_page] after
    [prev_page] gives it back unless the index was zero. *)
Theorem next_prev_page_inverse (c : t) (Hok : page_index_ok c) :
  ((page_index c < page_count c - 1)%Z -> prev_page (next_page c) = c)
  /\ ((0 < page_index c)%Z -> next_page (prev_page c) = c).
Proof.
  destruct (doc_truthy c) eqn:Ht.
  - pose proof (page_index_ok_truthy c Hok Ht) as Hi.
    split; intro Hlt.
    + rewrite (next_page_step c Ht Hlt).
      rewrite prev_page_step; [| exact Ht | cbn [page_index set_page_index]; lia].
      unfold set_page_index at 1. cbn [_open_pdf doc current_file page_index set_page_index].
      replace (page_index c + 1 - 1)%Z with (page_index c) by lia.
      destruct c; reflexivity.
    + rewrite (prev_page_step c Ht Hlt).
      rewrite next_page_step;
        [| exact Ht
         | change (page_count (set_page_index c (page_index c - 1)))
             with (page_count c);
           cbn [page_index set_page_index]; lia].
      unfold set_page_index at 1. cbn [_open_pdf doc current_file page_index set_page_index].
      replace (page_index c - 1 + 1)%Z with (page_index c) by lia.
      destruct c; reflexivity.
  - destruct (page_index_ok_falsy c Hok Ht) as [Hi Hc].
    split; intro Hlt; lia.
Qed.

Lemma next_prev_page_inverse_witness :
  let c := mk two_page_opener (Some (mkDocument "dummy.pdf" 3))
              (Some "dummy.pdf") 1%Z in
  prev_page (next_page c) = c /\ next_page (prev_page c) = c.
Proof.
  intro c.
  assert (Hok : page_index_ok c)
    by (vm_compute; split; [discriminate | reflexivity]).
  destruct (next_prev_page_inverse c Hok) as [Hnp Hpn].
  split; [apply Hnp | apply Hpn]; reflexivity.
Defined.


Lemma prev_page_keeps (c : t) :
  doc (prev_page c) = doc c /\ current_file (prev_page c) = current_file c
  /\ _open_pdf (prev_page c) = _open_pdf c.
Proof.
  unfold prev_page.
  destruct (doc_truthy c && (0 <? page_index c)%Z); repeat split.
Qed.








End DocumentControllerMore.

Section ClampAndLoad.

Import DocumentController.

(** X21.  [clamp_page_index] brings every index that is not negative into
    the document (to zero when there is none), changes nothing when the
    index is already inside, and is idempotent; an index below zero it
    leaves as it is when a document is held: the clamp is against the last
    page only. *)
Theorem clamp_page_index_repairs_from_above (c : t) :
  ((0 <= page_index c)%Z -> page_index_ok (clamp_page_index c))
  /\ (page_index_ok c -> clamp_page_index c = c)
  /\ clamp_page_index (clamp_page_index c) = clamp_page_index c
  /\ (doc_truthy c = true -> (page_index c < 0)%Z ->
      page_index (clamp_page_index c) = page_index c).
Proof.
  split; [apply clamp_page_index_repairs |].
  split; [| split].
  - intro Hok. unfold clamp_page_index.
    destruct (doc_truthy c) eqn:Ht; cbn [negb].
    + pose proof (page_index_ok_truthy c Hok Ht) as Hi.
      replace (Z.min (page_index c) (page_count c - 1)) with (page_index c)
        by lia.
      apply set_page_index_same.
    + destruct (page_index_ok_falsy c Hok Ht) as [Hi _].
      rewrite <- Hi. apply set_page_index_same.
  - unfold clamp_page_index.
    destruct (doc_truthy c) eqn:Ht; cbn [negb].
    + change (doc_truthy (set_page_index c
                (Z.min (page_index c) (page_count c - 1)))) with (doc_truthy c).
      rewrite Ht. cbn [negb]. unfold set_page_index at 1.
      cbn [_open_pdf doc current_file page_index set_page_index].
      change (page_count (set_page_index c
                (Z.min (page_index c) (page_count c - 1)))) with (page_count c).
      unfold set_page_index. f_equal. lia.
    + change (doc_truthy (set_page_index c 0)) with (doc_truthy c).
      rewrite Ht. reflexivity.
  - intros Ht Hneg. unfold clamp_page_index. rewrite Ht. cbn [negb].
    pose proof (page_count_positive c Ht). cbn [page_index set_page_index]. lia.
Qed.

Lemma clamp_page_index_repairs_from_above_witness :
  let shrunk := mk two_page_opener (Some (mkDocument "dummy.pdf" 2))
                   (Some "dummy.pdf") 9%Z in
  let below := mk two_page_opener (Some (mkDocument "dummy.pdf" 2))
                  (Some "dummy.pdf") (-1)%Z in
  page_index_ok (clamp_page_index shrunk)
  /\ page_index (clamp_page_index below) = (-1)%Z.
Proof.
  intros shrunk below. split.
  - apply (clamp_page_index_repairs_from_above shrunk). vm_compute. discriminate.
  - apply (clamp_page_index_repairs_from_above below); reflexivity.
Defined.

(** X22.  In a state with the index inside the document, [load_page] asks
    the document only for a page it has: it returns null when no document
    is held, and otherwise hands [doc.load_page] an index from 0 to the
    page count minus 1, so that a document that loads the pages it has
    never makes it raise. *)
Theorem load_page_in_range
  {Page : Type} (doc_load_page : Document -> Z -> result Page) (c : t)
  (Hok : page_index_ok c) :
  (doc_truthy c = false -> load_page doc_load_page c = Ok None)
  /\ (doc_truthy c = true ->
      exists d, doc c = Some d
                /\ (0 <= page_index c < Z.of_nat (doc_len d))%Z
                /\ load_page doc_load_page c
                   = match doc_load_page d (page_index c) with
                     | Raise e => Raise e
                     | Ok page => Ok (Some page)
                     end)
  /\ ((forall d i, (0 <= i < Z.of_nat (doc_len d))%Z ->
                   exists page, doc_load_page d i = Ok page) ->
      exists res, load_page doc_load_page c = Ok res).
Proof.
  assert (Hfalse : doc_truthy c = false -> load_page doc_load_page c = Ok None).
  { intro Ht. unfold load_page. rewrite Ht. destruct (doc c); reflexivity. }
  assert (Htrue : doc_truthy c = true ->
      exists d, doc c = Some d
                /\ (0 <= page_index c < Z.of_nat (doc_len d))%Z
                /\ load_page doc_load_page c
                   = match doc_load_page d (page_index c) with
                     | Raise e => Raise e
                     | Ok page => Ok (Some page)
                     end).
  { intro Ht. pose proof (page_index_ok_truthy c Hok Ht) as Hi.
    rewrite page_count_eq in Hi. unfold load_page. rewrite Ht.
    destruct (doc c) as [d |] eqn:Hd.
    - exists d. split; [reflexivity | split; [exact Hi | reflexivity]].
    - unfold doc_truthy in Ht. rewrite Hd in Ht. discriminate. }
  split; [exact Hfalse | split; [exact Htrue |]].
  intro Hloads. destruct (doc_truthy c) eqn:Ht.
  - destruct (Htrue eq_refl) as (d & Hd & Hi & Hl).
    destruct (Hloads d (page_index c) Hi) as [page Hp].
    rewrite Hl, Hp. eexists. reflexivity.
  - rewrite (Hfalse eq_refl). eexists. reflexivity.
Qed.

Lemma load_page_in_range_witness :
  let load (d : Document) (i : Z) : result Z :=
    if ((0 <=? i) && (i <? Z.of_nat (doc_len d)))%Z
    then Ok i else Raise (Exn IndexError "list index out of range") in
  let c := next_page (fst (open (init two_page_opener) "dummy.pdf")) in
  load_page load (init two_page_opener) = Ok None
  /\ exists res, load_page load c = Ok res.
Proof.
  intros load c. split.
  - apply (load_page_in_range load (init two_page_opener)
             (init_page_index_ok two_page_opener)).
    reflexivity.
  - assert (Hok : page_index_ok c)
      by (vm_compute; split; [discriminate | reflexivity]).
    apply (load_page_in_range load c Hok).
    intros d i Hi. unfold load.
    destruct (Z.leb_spec 0 i); [| lia].
    destruct (Z.ltb_spec i (Z.of_nat (doc_len d))); [| lia].
    eexists. reflexivity.
Defined.

End ClampAndLoad.

(** ** operations.py: fill_form_fields *)

Section FillFormFields.

Import Operations.

Local Open Scope list_scope.

Lemma fill_widgets_spec (values : Dict) (widgets : list DummyWidget) :
  forall changed : list string,
    fill_widgets values widgets changed
    = (map (filled values) widgets,
       changed ++ flat_map (reported values) widgets).
Proof.
  induction widgets as [| w rest IH]; intro changed.
  - cbn. rewrite app_nil_r. reflexivity.
  - cbn [fill_widgets map flat_map]. unfold filled at 1, reported at 1, widget_value.
    destruct (field_name w) as [name |] eqn:Hn.
    + destruct (String.eqb name "") eqn:He.
      * rewrite IH. reflexivity.
      * destruct (dict_get values name) as [value |] eqn:Hv.
        -- rewrite IH. rewrite <- app_assoc. reflexivity.
        -- rewrite IH. reflexivity.
    + rewrite IH. reflexivity.
Qed.

Lemma py_index_in_range {A : Type} (done todo : list A) (a : A) :
  py_index (done ++ a :: todo) (Z.of_nat (List.length done))
  = Ok (List.length done).
Proof.
  unfold py_index. rewrite length_app. cbn [List.length].
  destruct (Z.ltb_spec (Z.of_nat (List.length done)) 0); [lia |].
  destruct (Z.leb_spec 0 (Z.of_nat (List.length done))); [| lia].
  destruct (Z.ltb_spec (Z.of_nat (List.length done))
              (Z.of_nat (List.length done + S (List.length todo)))); [| lia].
  cbn [andb]. rewrite Nat2Z.id. reflexivity.
Qed.

Lemma nth_middle_app {A : Type} (done todo : list A) (a d : A) :
  nth (List.length done) (done ++ a :: todo) d = a.
Proof. induction done as [| x done IH]; [reflexivity | exact IH]. Qed.

Lemma list_set_middle {A : Type} (done todo : list A) (a b : A) :
  list_set (done ++ a :: todo) (List.length done) b = done ++ b :: todo.
Proof.
  induction done as [| x done IH]; [reflexivity |].
  cbn [app List.length list_set]. rewrite IH. reflexivity.
Qed.

Lemma fill_pages_spec (values : Dict) (todo : FormDoc) :
  forall (done : FormDoc) (changed : list string),
    fill_pages values
      (map Z.of_nat (seq (List.length done) (List.length todo)))
      (done ++ todo) changed
    = (done ++ map (map (filled values)) todo,
       Ok (changed ++ flat_map (flat_map (reported values)) todo)).
Proof.
  induction todo as [| page rest IH]; intros done changed.
  - cbn. rewrite !app_nil_r. reflexivity.
  - cbn [List.length seq map fill_pages flat_map].
    rewrite py_index_in_range, nth_middle_app, fill_widgets_spec.
    rewrite list_set_middle.
    specialize (IH (done ++ [map (filled values) page])
                  (changed ++ flat_map (reported values) page)).
    rewrite length_app in IH. cbn [List.length] in IH.
    replace (List.length done + 1)%nat with (S (List.length done)) in IH by lia.
    rewrite <- !app_assoc in IH. cbn [app] in IH.
    rewrite IH. reflexivity.
Qed.

Lemma widget_value_empty (w : DummyWidget) : widget_value [] w = None.
Proof.
  unfold widget_value. destruct (field_name w) as [name |]; [| reflexivity].
  destruct (String.eqb name ""); reflexivity.
Qed.

Lemma fill_form_fields_eq (doc : FormDoc) (values : Dict) :
  fill_form_fields doc values
  = (map (map (filled values)) doc,
     Ok (flat_map (flat_map (reported values)) doc)).
Proof.
  destruct values as [| item values'].
  - cbn [fill_form_fields]. f_equal.
    + induction doc as [| page rest IH]; [reflexivity |].
      cbn [map]. rewrite <- IH. f_equal.
      induction page as [| w ws IHw]; [reflexivity |].
      cbn [map]. rewrite <- IHw. unfold filled at 1.
      rewrite widget_value_empty. reflexivity.
    + f_equal. induction doc as [| page rest IH]; [reflexivity |].
      cbn [flat_map]. rewrite <- IH.
      induction page as [| w ws IHw]; [reflexivity |].
      cbn [flat_map]. unfold reported at 1. rewrite widget_value_empty.
      exact IHw.
  - unfold fill_form_fields, py_range.
    exact (fill_pages_spec (item :: values') doc [] []).
Qed.

(** X23.  [fill_form_fields] never raises on a list-backed document and
    does one thing to each widget, in page and widget order: a widget whose
    name is not empty and is a key of [values] gets the value of that key
    and is updated, and its name is reported; every other widget is left as
    it is and not reported.  With no values nothing changes and nothing is
    reported. *)
Theorem fill_form_fields_spec (doc : FormDoc) (values : Dict) :
  fill_form_fields doc values
  = (map (map (filled values)) doc,
     Ok (flat_map (flat_map (reported values)) doc))
  /\ fill_form_fields doc [] = (doc, Ok []).
Proof.
  split; [apply fill_form_fields_eq | reflexivity].
Qed.

(** [test_fill_form_fields_updates_matching_fields], evaluated. *)
Example test_fill_form_fields_updates_matching_fields :
  fill_form_fields
    [[mkWidget (Some "name") None false; mkWidget (Some "title") None false]]
    [("name", "Alice")]
  = ([[mkWidget (Some "name") (Some "Alice") true;
       mkWidget (Some "title") None false]],
     Ok ["name"]).
Proof. reflexivity. Qed.

Lemma filled_name (values : Dict) (w : DummyWidget) :
  field_name (filled values w) = field_name w.
Proof.
  unfold filled. destruct (widget_value values w) as [[name value] |];
    reflexivity.
Qed.

Lemma widget_value_filled (values : Dict) (w : DummyWidget) :
  widget_value values (filled values w) = widget_value values w.
Proof. unfold widget_value. rewrite filled_name. reflexivity. Qed.

Lemma filled_idempotent (values : Dict) (w : DummyWidget) :
  filled values (filled values w) = filled values w.
Proof.
  unfold filled at 1. rewrite widget_value_filled.
  unfold filled. destruct (widget_value values w) as [[name value] |];
    reflexivity.
Qed.

Lemma reported_filled (values : Dict) (w : DummyWidget) :
  reported values (filled values w) = reported values w.
Proof. unfold reported. rewrite widget_value_filled. reflexivity. Qed.

Lemma reported_filled_page (values : Dict) (page : DummyPage) :
  flat_map (reported values) (map (filled values) page)
  = flat_map (reported values) page.
Proof.
  induction page as [| w ws IHw]; [reflexivity |].
  cbn [map flat_map]. rewrite IHw, reported_filled. reflexivity.
Qed.

Lemma reported_filled_doc (values : Dict) (doc : FormDoc) :
  flat_map (flat_map (reported values)) (map (map (filled values)) doc)
  = flat_map (flat_map (reported values)) doc.
Proof.
  induction doc as [| page rest IH]; [reflexivity |].
  cbn [map flat_map]. rewrite IH, reported_filled_page. reflexivity.
Qed.

(** X24.  Filling is idempotent: a second [fill_form_fields] with the same
    values leaves the filled document as it is and reports the same names
    again. *)
Theorem fill_form_fields_idempotent (doc : FormDoc) (values : Dict) :
  fill_form_fields (fst (fill_form_fields doc values)) values
  = fill_form_fields doc values.
Proof.
  rewrite (fill_form_fields_eq doc values). cbn [fst].
  rewrite (fill_form_fields_eq (map (map (filled values)) doc) values).
  assert (Hdoc : map (map (filled values)) (map (map (filled values)) doc)
                 = map (map (filled values)) doc).
  { rewrite map_map. apply map_ext. intro page.
    rewrite map_map. apply map_ext. intro w. apply filled_idempotent. }
  rewrite Hdoc, reported_filled_doc. reflexivity.
Qed.

(** X25.  What filling never does: it keeps the number of pages, the number
    of widgets of each page and every widget's name; it leaves a widget
    without a name, or with the empty name, untouched even when the empty
    string is a key of [values]; and every name it reports is a non-empty
    key of [values]. *)
Theorem fill_form_fields_preserves (doc : FormDoc) (values : Dict) :
  let doc' := fst (fill_form_fields doc values) in
  map (map field_name) doc' = map (map field_name) doc
  /\ (forall w, field_name w = None \/ field_name w = Some "" ->
                filled values w = w /\ reported values w = [])
  /\ (forall names name,
        snd (fill_form_fields doc values) = Ok names -> In name names ->
        name <> "" /\ dict_get values name <> None).
Proof.
  intro doc'. unfold doc'.
  rewrite (fill_form_fields_eq doc values). cbn [fst snd].
  split; [| split].
  - rewrite map_map. apply map_ext. intro page.
    rewrite map_map. apply map_ext. intro w. apply filled_name.
  - intros w [Hn | Hn]; unfold filled, reported, widget_value; rewrite Hn;
      split; reflexivity.
  - intros names name Hnames Hin. injection Hnames as <-.
    apply in_flat_map in Hin. destruct Hin as (page & _ & Hin).
    apply in_flat_map in Hin. destruct Hin as (w & _ & Hin).
    unfold reported, widget_value in Hin.
    destruct (field_name w) as [n |]; [| contradiction].
    destruct (String.eqb_spec n "") as [E | E]; [contradiction |].
    destruct (dict_get values n) as [value |] eqn:Hv; [| contradiction].
    destruct Hin as [<- | []]. split; [exact E | congruence].
Qed.

Lemma fill_form_fields_preserves_witness :
  "name" <> "" /\ dict_get [("", "x"); ("name", "Alice")] "name" <> None.
Proof.
  apply (fill_form_fields_preserves
           [[mkWidget (Some "") None false; mkWidget (Some "name") None false]]
           [("", "x"); ("name", "Alice")]) with (names := ["name"]).
  - reflexivity.
  - left. reflexivity.
Defined.

(** A widget with the empty name is skipped although the empty string is a
    key. *)
Example fill_form_fields_empty_name :
  fill_form_fields
    [[mkWidget (Some "") None false; mkWidget (Some "name") None false]]
    [("", "x"); ("name", "Alice")]
  = ([[mkWidget (Some "") None false;
       mkWidget (Some "name") (Some "Alice") true]],
     Ok ["name"]).
Proof. reflexivity. Qed.

End FillFormFields.

(** ** operations.py: insert_image, the success path *)

Section InsertImageSuccess.

Import Operations.

Local Open Scope list_scope.

Lemma rect_or_default_truthy (rect : option Rect) :
  rect_truthy (rect_or_default rect) = true.
Proof.
  unfold rect_or_default. destruct rect as [r |]; [| reflexivity].
  destruct (rect_truthy r) eqn:E; [exact E | reflexivity].
Qed.

Lemma insert_image_loaded
  {Doc Page : Type} `{PdfDocument Doc Page} (path_exists : string -> bool)
  (doc : Doc) (image_path : string) (page_index : Z) (rect : option Rect)
  (page : Page) :
  path_exists image_path = true ->
  doc_load_page doc page_index = Ok page ->
  insert_image path_exists doc image_path page_index rect
  = (fst (page_insert_image doc page (rect_or_default rect) image_path
            true true),
     match snd (page_insert_image doc page (rect_or_default rect) image_path
                  true true) with
     | Some e => Raise e
     | None => Ok (rect_or_default rect)
     end).
Proof.
  intros Hp Hload. unfold insert_image. rewrite Hp, Hload. cbn [negb].
  destruct (page_insert_image doc page (rect_or_default rect) image_path
              true true) as [doc' [e |]]; reflexivity.
Qed.

(** X26.  When the image exists and the page loads, [insert_image] inserts
    at the given rectangle, or at [DEFAULT_INSERT_RECT] when none is given
    and also when the given one is all-zero, with [keep_proportion] and
    [overlay] set; it returns the rectangle it used, which is never
    all-zero, unless the insertion itself raises. *)
Theorem insert_image_success
  {Doc Page : Type} `{PdfDocument Doc Page} (path_exists : string -> bool)
  (doc : Doc) (image_path : string) (page_index : Z) (rect : option Rect)
  (page : Page) :
  path_exists image_path = true ->
  doc_load_page doc page_index = Ok page ->
  let target := rect_or_default rect in
  insert_image path_exists doc image_path page_index rect
  = (fst (page_insert_image doc page target image_path true true),
     match snd (page_insert_image doc page target image_path true true) with
     | Some e => Raise e
     | None => Ok target
     end)
  /\ rect_truthy target = true
  /\ (rect = None -> target = DEFAULT_INSERT_RECT)
  /\ (forall r, rect = Some r -> rect_truthy r = false ->
                target = DEFAULT_INSERT_RECT)
  /\ (forall r, rect = Some r -> rect_truthy r = true -> target = r).
Proof.
  intros Hp Hload target.
  split; [apply insert_image_loaded; assumption |].
  split; [apply rect_or_default_truthy |].
  split; [intros ->; reflexivity |].
  split; intros r -> Ht; unfold target, rect_or_default; rewrite Ht;
    reflexivity.
Qed.

Lemma insert_image_success_witness :
  insert_image (fun _ => true) ([[]] : DummyDoc) "sig.png" 0%Z
    (Some (mkRect 0 0 0 0))
  = ([[mkCall DEFAULT_INSERT_RECT "sig.png" true true]],
     Ok DEFAULT_INSERT_RECT).
Proof.
  assert (Hload : doc_load_page ([[]] : DummyDoc) 0%Z = Ok 0%nat)
    by reflexivity.
  destruct (insert_image_success (fun _ => true) ([[]] : DummyDoc) "sig.png"
              0%Z (Some (mkRect 0 0 0 0)) 0%nat eq_refl Hload) as (Hins & _).
  exact Hins.
Defined.

Lemma record_call_nth (d : DummyDoc) (pos : nat) (c : call) :
  List.length (record_call d pos c) = List.length d
  /\ forall j,
       nth_error (record_call d pos c) j
       = if Nat.eqb j pos
         then option_map (fun p => p ++ [c]) (nth_error d j)
         else nth_error d j.
Proof.
  revert pos. induction d as [| p rest IH]; intro pos.
  - split; [reflexivity |]. intro j. cbn [record_call].
    destruct (Nat.eqb j pos); destruct j; reflexivity.
  - destruct pos as [| k].
    + split; [reflexivity |]. intros [| j]; reflexivity.
    + destruct (IH k) as [Hlen Hnth]. split.
      * cbn [record_call List.length]. rewrite Hlen. reflexivity.
      * intros [| j]; [reflexivity |]. cbn [record_call nth_error].
        rewrite Hnth. reflexivity.
Qed.

(** X27.  On a list-backed document an index from [-len] to [len - 1],
    counted from the end when negative, makes [insert_image] record exactly
    one call, on that page and after the calls the page already holds; the
    other pages and the number of pages stay as they are. *)
Theorem insert_image_records_one_call
  (path_exists : string -> bool) (doc : DummyDoc) (image_path : string)
  (page_index : Z) (rect : option Rect) :
  path_exists image_path = true ->
  (- Z.of_nat (List.length doc) <= page_index < Z.of_nat (List.length doc))%Z ->
  let pos := Z.to_nat (if (page_index <? 0)%Z
                       then page_index + Z.of_nat (List.length doc)
                       else page_index)%Z in
  let c := mkCall (rect_or_default rect) image_path true true in
  exists doc',
    insert_image path_exists doc image_path page_index rect
    = (doc', Ok (rect_or_default rect))
    /\ List.length doc' = List.length doc
    /\ (forall j, j <> pos -> nth_error doc' j = nth_error doc j)
    /\ nth_error doc' pos = option_map (fun p => p ++ [c]) (nth_error doc pos)
    /\ (pos < List.length doc)%nat.
Proof.
  intros Hp Hrange pos c.
  assert (Hload : doc_load_page doc page_index = Ok pos).
  { cbn [doc_load_page DummyDoc_PdfDocument]. unfold list_index. fold pos.
    destruct (Z.ltb_spec page_index 0);
      [destruct (Z.leb_spec 0 (page_index + Z.of_nat (List.length doc)));
         [| lia];
       destruct (Z.ltb_spec (page_index + Z.of_nat (List.length doc))
                   (Z.of_nat (List.length doc))); [| lia]
      |destruct (Z.leb_spec 0 page_index); [| lia];
       destruct (Z.ltb_spec page_index (Z.of_nat (List.length doc))); [| lia]];
      reflexivity. }
  pose proof (insert_image_loaded path_exists doc image_path page_index rect
                pos Hp Hload) as Hins.
  cbn [page_insert_image DummyDoc_PdfDocument fst snd] in Hins.
  exists (record_call doc pos c). fold c in Hins.
  destruct (record_call_nth doc pos c) as [Hlen Hnth].
  split; [exact Hins |]. split; [exact Hlen |].
  split; [| split].
  - intros j Hj. rewrite Hnth.
    destruct (Nat.eqb_spec j pos); [contradiction | reflexivity].
  - rewrite Hnth, Nat.eqb_refl. reflexivity.
  - unfold pos. destruct (Z.ltb_spec page_index 0); lia.
Qed.

Lemma insert_image_records_one_call_witness :
  exists doc',
    insert_image (fun _ => true) ([[]; []] : DummyDoc) "sig.png" (-1)%Z None
    = (doc', Ok (rect_or_default None))
    /\ List.length doc' = 2%nat
    /\ (forall j, j <> 1%nat ->
                  nth_error doc' j = nth_error ([[]; []] : DummyDoc) j)
    /\ nth_error doc' 1
       = option_map
           (fun p => p ++ [mkCall (rect_or_default None) "sig.png" true true])
           (nth_error ([[]; []] : DummyDoc) 1)
    /\ (1 < 2)%nat.
Proof.
  apply (insert_image_records_one_call (fun _ => true) ([[]; []] : DummyDoc)
           "sig.png" (-1)%Z None); [reflexivity | cbn; lia].
Defined.

End InsertImageSuccess.

(** ** gui.py: pointer and document handling *)

Section GuiFacts.

Import Gui.

Lemma draw_overlay_keeps_controllers (a : App) :
  signature_controller (fst (_draw_signature_overlay a)) = signature_controller a
  /\ doc_controller (fst (_draw_signature_overlay a)) = doc_controller a
  /\ page_rect (fst (_draw_signature_overlay a)) = page_rect a
  /\ page_scale (fst (_draw_signature_overlay a)) = page_scale a
  /\ _drag_offset (fst (_draw_signature_overlay a)) = _drag_offset a.
Proof.
  unfold _draw_signature_overlay.
  destruct (signature_rect a) as [r |]; [| repeat split].
  destruct (true_page_rect a) as [pr |]; [| repeat split].
  destruct (negb (has_image a) || negb (has_doc a) || negb (on_current_page a));
    [repeat split |].
  destruct (Layout.pdf_rect_to_canvas_rect r pr (page_scale a)); repeat split.
Qed.

(** X28.  The pointer handlers of the window do what the controller does:
    while a handle is active, [_resize_drag] leaves the signature controller
    as [SignatureController.resize] does for that handle, the pointer taken
    to PDF space, and minimum sizes of 20; while dragging, [_drag_move]
    leaves it as [SignatureController.move_to] does for the pointer less the
    drag offset. *)
Theorem gui_handlers_agree_with_controller
  (a : App) (event : Q * Q) (pr : Rect) :
  true_page_rect a = Some pr ->
  (forall handle, true_active_handle a = Some handle ->
     signature_controller (fst (_resize_drag a event))
     = fst (SignatureController.resize (signature_controller a) handle
              (fst (Layout.canvas_to_pdf (fst event) (snd event) pr (page_scale a)))
              (snd (Layout.canvas_to_pdf (fst event) (snd event) pr (page_scale a)))
              pr 20 20))
  /\ (_is_dragging a = true ->
      signature_controller (fst (_drag_move a event))
      = fst (SignatureController.move_to (signature_controller a)
               (fst event - fst (_drag_offset a))
               (snd event - snd (_drag_offset a)) pr (page_scale a))).
Proof.
  intro Hpr. split.
  - intros handle Hh. unfold _resize_drag, SignatureController.resize.
    unfold signature_rect. rewrite Hpr, Hh.
    destruct (SignatureController.guarded_rect (signature_controller a))
      as [r |]; [| reflexivity].
    unfold Layout.canvas_to_pdf. cbn [fst snd].
    destruct (draw_overlay_keeps_controllers
                (set_signature_rect a
                   (Layout.clamp_rect
                      (resize_drag_edge handle
                         (fst event * fst (page_scale a) + x0 pr)
                         (snd event * snd (page_scale a) + y0 pr) 20 20 r) pr)))
      as (Hs & _).
    rewrite Hs. reflexivity.
  - intro Hd. unfold _drag_move, SignatureController.move_to.
    unfold signature_rect. rewrite Hd, Hpr. cbn [negb].
    destruct (SignatureController.guarded_rect (signature_controller a))
      as [r |]; [| reflexivity].
    unfold Layout.canvas_to_pdf. cbn [fst snd].
    match goal with
    | |- signature_controller (fst (_draw_signature_overlay ?b)) = _ =>
      destruct (draw_overlay_keeps_controllers b) as (Hs & _); rewrite Hs
    end.
    reflexivity.
Qed.

Lemma gui_handlers_agree_with_controller_witness :
  let a := mkApp (DocumentController.mk DocumentController.two_page_opener
                    (Some (DocumentController.mkDocument "dummy.pdf" 2))
                    (Some "dummy.pdf") 0%Z)
             (SignatureController.mk 200 (Some "sig.png")
                (Some (mkRect 50 50 100 100)) (Some 0%Z))
             (Some (mkRect 0 0 200 200)) (1, 1) (Some "w") true true (5, 5) in
  signature_controller (fst (_resize_drag a (10, 60)))
  = fst (SignatureController.resize (signature_controller a) "w"
           (fst (Layout.canvas_to_pdf 10 60 (mkRect 0 0 200 200) (1, 1)))
           (snd (Layout.canvas_to_pdf 10 60 (mkRect 0 0 200 200) (1, 1)))
           (mkRect 0 0 200 200) 20 20)
  /\ signature_controller (fst (_drag_move a (10, 60)))
     = fst (SignatureController.move_to (signature_controller a)
              (10 - 5) (60 - 5) (mkRect 0 0 200 200) (1, 1)).
Proof.
  intro a.
  destruct (gui_handlers_agree_with_controller a (10, 60) (mkRect 0 0 200 200)
              eq_refl) as [Hr Hm].
  split; [apply (Hr "w"); reflexivity | apply Hm; reflexivity].
Defined.

End GuiFacts.

Lemma pdf_rect_to_canvas_rect_inv
  (r page : Rect) (scale : Q * Q) (c : Q * Q * Q * Q) :
  Layout.pdf_rect_to_canvas_rect r page scale = Ok c ->
  c = ((x0 r - x0 page) / fst scale, (y0 r - y0 page) / snd scale,
       (x1 r - x0 page) / fst scale, (y1 r - y0 page) / snd scale).
Proof.
  unfold Layout.pdf_rect_to_canvas_rect, Layout.py_div.
  destruct (Qeq_bool (fst scale) 0); [discriminate |].
  destruct (Qeq_bool (snd scale) 0); [discriminate |].
  intro Hc. injection Hc as <-. reflexivity.
Qed.

Section GuiClick.

Import Gui.

Variable image_size_of : string -> result (Z * Z).

(** X29.  What a click on the page does, with a document open and a page
    rendered.  While a resize is in progress it changes nothing.  Otherwise
    a click that the hit test of the controller, [point_in_signature], finds
    on the signature of the current page never places the signature anew:
    it starts a drag, the test of [_start_drag] on [_signature_canvas_rect]
    agreeing with the controller's, and the offset is that of the click from
    the top-left corner of the signature on the canvas.  A click that the
    hit test does not find on the signature, or with the signature on
    another page, places the signature on the current page as
    [place_on_page] does when an image is loaded and its size can be read;
    without an image it changes nothing. *)
Theorem click_starts_drag_or_places
  (a : App) (event : Q * Q) (pr : Rect) :
  has_doc a = true -> true_page_rect a = Some pr ->
  let hit :=
    SignatureController.point_in_signature (signature_controller a)
      (fst event) (snd event) pr (page_scale a) in
  let clicked := _handle_canvas_click image_size_of a event in
  (_is_resizing a = true -> fst clicked = a)
  /\ (_is_resizing a = false ->
      forall r, signature_rect a = Some r -> on_current_page a = true ->
                hit = Ok true ->
      clicked
      = (set_is_dragging
           (set_drag_offset a
              (fst event - (x0 r - x0 pr) / fst (page_scale a),
               snd event - (y0 r - y0 pr) / snd (page_scale a))) true,
         Ok tt))
  /\ (_is_resizing a = false ->
      on_current_page a = false \/ hit = Ok false ->
      (SignatureController.image_path (signature_controller a) = None ->
       fst clicked = a)
      /\ (forall path size,
            SignatureController.image_path (signature_controller a) = Some path ->
            image_size_of path = Ok size ->
            signature_controller (fst clicked)
            = fst (SignatureController.place_on_page (signature_controller a)
                     (fst event) (snd event)
                     (DocumentController.page_index (doc_controller a))
                     pr (page_scale a) size))).
Proof.
  intros Hdoc Hpr hit clicked.
  unfold clicked, _handle_canvas_click. rewrite Hdoc, Hpr. fold hit.
  split; [| split].
  - intro Hres. rewrite Hres. cbn [negb].
    destruct (signature_rect a) as [r |].
    + destruct (on_current_page a); cbn [negb].
      * destruct hit as [inside | e]; [| reflexivity].
        rewrite andb_false_r.
        destruct (SignatureController.image_path (signature_controller a));
          reflexivity.
      * destruct (SignatureController.image_path (signature_controller a));
          reflexivity.
    + destruct (SignatureController.image_path (signature_controller a));
        reflexivity.
  - intros Hres r Hr Hcur Hhit. rewrite Hr, Hcur, Hres, Hhit.
    cbn [negb andb].
    unfold hit, SignatureController.point_in_signature in Hhit.
    pose proof Hr as Hg. unfold signature_rect in Hg. rewrite Hg in Hhit.
    unfold _start_drag, _signature_canvas_rect. rewrite Hr, Hpr.
    destruct (Layout.pdf_rect_to_canvas_rect r pr (page_scale a))
      as [c | e] eqn:Hc; [| discriminate].
    rewrite (pdf_rect_to_canvas_rect_inv _ _ _ _ Hc) in Hhit |- *.
    injection Hhit as Hin. unfold in_canvas_rect. rewrite Hin.
    reflexivity.
  - intros Hres Hmiss.
    assert (Hhit :
      match signature_rect a with
      | None => Ok false
      | Some _ =>
        if negb (on_current_page a)
        then Ok false
        else
          match hit with
          | Raise e => Raise e
          | Ok inside => Ok (inside && negb (_is_resizing a))
          end
      end = Ok false).
    { destruct (signature_rect a) as [r |]; [| reflexivity].
      destruct Hmiss as [Hcur | Hhit].
      - rewrite Hcur. reflexivity.
      - rewrite Hhit. destruct (on_current_page a); reflexivity. }
    rewrite Hhit. split.
    + intro Hnone. rewrite Hnone. reflexivity.
    + intros path size Hpath Hsize. rewrite Hpath, Hres, Hsize.
      unfold SignatureController.place_on_page. cbn [fst].
      match goal with
      | |- signature_controller (fst (_draw_signature_overlay ?b)) = _ =>
        destruct (draw_overlay_keeps_controllers b) as (Hs & _); rewrite Hs
      end.
      reflexivity.
Qed.

End GuiClick.

Lemma click_starts_drag_or_places_witness :
  let a := Gui.mkApp (DocumentController.mk DocumentController.two_page_opener
                    (Some (DocumentController.mkDocument "dummy.pdf" 2))
                    (Some "dummy.pdf") 0%Z)
             (SignatureController.mk 200 (Some "sig.png")
                (Some (mkRect 50 50 100 100)) (Some 0%Z))
             (Some (mkRect 0 0 200 200)) (1, 1) None false false (0, 0) in
  Gui._handle_canvas_click (fun _ => Ok (100%Z, 50%Z)) a (60, 70)
  = (Gui.set_is_dragging
       (Gui.set_drag_offset a (60 - (50 - 0) / 1, 70 - (50 - 0) / 1)) true,
     Ok tt).
Proof.
  intro a.
  destruct (click_starts_drag_or_places (fun _ => Ok (100%Z, 50%Z)) a (60, 70)
              (mkRect 0 0 200 200) eq_refl eq_refl)
    as (_ & Hdrag & _).
  apply (Hdrag eq_refl (mkRect 50 50 100 100) eq_refl eq_refl).
  reflexivity.
Defined.

Section GuiDocuments.

Import Gui.

Variable Page : Type.
Variable doc_load_page : DocumentController.Document -> Z -> result Page.
Variable rect_of_page : Page -> Rect.
Variable get_pixmap : Page -> Q -> result (Z * Z).

Lemma set_doc_controller_same (a : App) :
  set_doc_controller a (doc_controller a) = a.
Proof. destruct a. reflexivity. Qed.

Lemma close_document_fields (a : App) :
  doc_controller (_close_document a)
  = DocumentController.close (doc_controller a)
  /\ signature_controller (_close_document a)
     = SignatureController.reset (signature_controller a)
  /\ active_handle (_close_document a) = None
  /\ _is_resizing (_close_document a) = false
  /\ _is_dragging (_close_document a) = false.
Proof. repeat split. Qed.

Lemma render_page_no_doc (a : App) (canvas : Z * Z) :
  has_doc a = false ->
  _render_page Page doc_load_page rect_of_page get_pixmap a canvas = (a, Ok tt).
Proof. intro Hd. unfold _render_page. rewrite Hd. reflexivity. Qed.

(** X30.  Opening and saving in the window close the document first or
    last.  [_open_pdf] closes the current document, resets the signature
    and ends any resize or drag before it tries the new file, so a file
    that fails to open leaves the window with no document, no signature, no
    active handle and neither flag set, not with the previous ones.
    [_open_pdf_after_save] closes the document it has just reloaded: after
    a successful reload of a document with pages the window holds no
    document, the page index is zero, the signature is reset and no resize
    or drag is in progress. *)
Theorem gui_open_and_reload_close_the_document
  (a : App) (path : string) (canvas : Z * Z) :
  (forall e,
     DocumentController._open_pdf (doc_controller a) path = Raise e ->
     is_RuntimeError e = true ->
     _open_pdf Page doc_load_page rect_of_page get_pixmap a (Some path) canvas
     = (_close_document a, Ok tt)
     /\ DocumentController.doc (doc_controller (_close_document a)) = None
     /\ signature_controller (_close_document a)
        = SignatureController.reset (signature_controller a)
     /\ active_handle (_close_document a) = None
     /\ _is_resizing (_close_document a) = false
     /\ _is_dragging (_close_document a) = false)
  /\ (forall d,
        DocumentController._open_pdf (doc_controller a) path = Ok d ->
        DocumentController.doc_len d <> 0%nat ->
        let saved :=
          _open_pdf_after_save Page doc_load_page rect_of_page get_pixmap
            a path canvas in
        snd saved = Ok tt
        /\ DocumentController.doc (doc_controller (fst saved)) = None
        /\ DocumentController.page_index (doc_controller (fst saved)) = 0%Z
        /\ signature_controller (fst saved)
           = SignatureController.reset (signature_controller a)
        /\ active_handle (fst saved) = None
        /\ _is_resizing (fst saved) = false
        /\ _is_dragging (fst saved) = false).
Proof.
  split.
  - intros e Hfail Hrt. split; [| repeat split].
    unfold _open_pdf.
    assert (Hopen :
      DocumentController.open (doc_controller (_close_document a)) path
      = (doc_controller (_close_document a), Raise e)).
    { unfold DocumentController.open.
      change (DocumentController._open_pdf (doc_controller (_close_document a)))
        with (DocumentController._open_pdf (doc_controller a)).
      rewrite Hfail. reflexivity. }
    rewrite Hopen, Hrt. rewrite set_doc_controller_same. reflexivity.
  - intros d Hopen Hlen saved. unfold saved, _open_pdf_after_save.
    unfold DocumentController.reload, DocumentController.open.
    rewrite Hopen.
    destruct (DocumentController.doc_len d) as [| n] eqn:Hn;
      [contradiction |].
    cbn [Nat.eqb negb].
    rewrite render_page_no_doc by reflexivity.
    repeat split.
Qed.

End GuiDocuments.

Lemma gui_open_and_reload_close_the_document_witness :
  let loaded :=
    Gui.mkApp (DocumentController.mk DocumentController.two_page_opener
                 (Some (DocumentController.mkDocument "dummy.pdf" 2))
                 (Some "dummy.pdf") 1%Z)
      (SignatureController.mk 200 (Some "sig.png")
         (Some (mkRect 50 50 100 100)) (Some 1%Z))
      (Some (mkRect 0 0 200 200)) (1, 1) None false false (0, 0) in
  let failing :=
    Gui.set_doc_controller loaded
      (DocumentController.mk DocumentController.bad_opener
         (Some (DocumentController.mkDocument "dummy.pdf" 2))
         (Some "dummy.pdf") 1%Z) in
  let load (d : DocumentController.Document) (i : Z) : result Z := Ok i in
  let rect_of (p : Z) := mkRect 0 0 200 200 in
  let pixmap (p : Z) (s : Q) : result (Z * Z) := Ok (200%Z, 200%Z) in
  DocumentController.doc
    (Gui.doc_controller
       (fst (Gui._open_pdf Z load rect_of pixmap failing (Some "x.pdf")
               (900%Z, 1200%Z)))) = None
  /\ DocumentController.doc
       (Gui.doc_controller
          (fst (Gui._open_pdf_after_save Z load rect_of pixmap loaded
                  "saved.pdf" (900%Z, 1200%Z)))) = None.
Proof.
  intros loaded failing load rect_of pixmap. split.
  - destruct (gui_open_and_reload_close_the_document Z load rect_of pixmap
                failing "x.pdf" (900%Z, 1200%Z)) as [Hopen _].
    destruct (Hopen (Exn RuntimeError "fail") eq_refl eq_refl) as (Hres & Hdoc & _).
    rewrite Hres. exact Hdoc.
  - destruct (gui_open_and_reload_close_the_document Z load rect_of pixmap
                loaded "saved.pdf" (900%Z, 1200%Z)) as [_ Hsave].
    destruct (Hsave (DocumentController.mkDocument "saved.pdf" 2) eq_refl)
      as (_ & Hdoc & _); [discriminate | exact Hdoc].
Defined.

Section GuiDrag.

Import Gui.

Lemma rect_eq_trans (a b c : Rect) : rect_eq a b -> rect_eq b c -> rect_eq a c.
Proof.
  intros (A0 & A1 & A2 & A3) (B0 & B1 & B2 & B3). unfold rect_eq.
  repeat split; lra.
Qed.

(** X18, over exact arithmetic (the code's floating-point rounding aside).
    A drag moves the signature by the pointer's displacement: after
    [_start_drag] at a point of the signature, [_drag_move] at a second
    point stores the rectangle shifted by the displacement between the two
    points, scaled to PDF space, whenever the shifted rectangle lies within
    the page; in particular a drag that ends where it began leaves the
    rectangle where it was.  The rectangle has [x0 <= x1] and [y0 <= y1],
    and the scales are positive. *)
Theorem drag_moves_by_pointer_displacement
  (a : App) (r pr : Rect) (start finish : Q * Q) :
  signature_rect a = Some r -> true_page_rect a = Some pr ->
  0 < fst (page_scale a) -> 0 < snd (page_scale a) ->
  x0 r <= x1 r -> y0 r <= y1 r ->
  contains r (fst start * fst (page_scale a) + x0 pr)
             (snd start * snd (page_scale a) + y0 pr) ->
  let dx := (fst finish - fst start) * fst (page_scale a) in
  let dy := (snd finish - snd start) * snd (page_scale a) in
  let shifted := mkRect (x0 r + dx) (y0 r + dy) (x1 r + dx) (y1 r + dy) in
  within shifted pr ->
  let grabbed := fst (_start_drag a start) in
  _is_dragging grabbed = true
  /\ exists r',
       SignatureController.rect
         (signature_controller (fst (_drag_move grabbed finish))) = Some r'
       /\ rect_eq r' shifted.
Proof.
  intros Hr Hpr Hx Hy Hvx Hvy Hin dx dy shifted Hfit grabbed.
  assert (Hgrab :
    grabbed
    = set_is_dragging
        (set_drag_offset a
           (fst start - (x0 r - x0 pr) / fst (page_scale a),
            snd start - (y0 r - y0 pr) / snd (page_scale a))) true).
  { unfold grabbed, _start_drag, _signature_canvas_rect. rewrite Hr, Hpr.
    rewrite pdf_rect_to_canvas_rect_ok by lra.
    apply (in_canvas_rect_contains r pr (page_scale a) _ _ Hx Hy) in Hin.
    rewrite Hin. reflexivity. }
  rewrite Hgrab. split; [reflexivity |].
  unfold _drag_move. cbn [_is_dragging set_is_dragging negb].
  change (signature_rect (set_is_dragging (set_drag_offset a _) true))
    with (signature_rect a).
  change (true_page_rect (set_is_dragging (set_drag_offset a _) true))
    with (true_page_rect a).
  rewrite Hr, Hpr.
  cbn [_drag_offset set_is_dragging set_drag_offset page_scale fst snd].
  unfold Layout.canvas_to_pdf. cbn [fst snd].
  match goal with
  | |- exists r', SignatureController.rect
                    (signature_controller (fst (_draw_signature_overlay ?b)))
                  = Some r' /\ _ =>
    destruct (draw_overlay_keeps_controllers b) as (Hs & _); rewrite Hs
  end.
  eexists. split; [reflexivity |].
  pose proof (width_extent r Hvx) as Hw. pose proof (height_extent r Hvy) as Hh.
  unfold x_extent in Hw. unfold y_extent in Hh.
  eapply rect_eq_trans; [| apply (clamp_rect_within_id shifted pr Hfit)].
  apply clamp_rect_rect_eq; [| unfold rect_eq; repeat split; reflexivity].
  assert (Ex : (fst finish - (fst start - (x0 r - x0 pr) / fst (page_scale a)))
               * fst (page_scale a) + x0 pr == x0 r + dx)
    by (unfold dx; field; lra).
  assert (Ey : (snd finish - (snd start - (y0 r - y0 pr) / snd (page_scale a)))
               * snd (page_scale a) + y0 pr == y0 r + dy)
    by (unfold dy; field; lra).
  unfold rect_eq, shifted. rect_simpl.
  repeat split; lra.
Qed.

Lemma drag_moves_by_pointer_displacement_witness :
  let a := mkApp (DocumentController.mk DocumentController.two_page_opener
                    (Some (DocumentController.mkDocument "dummy.pdf" 2))
                    (Some "dummy.pdf") 0%Z)
             (SignatureController.mk 200 (Some "sig.png")
                (Some (mkRect 50 50 100 100)) (Some 0%Z))
             (Some (mkRect 0 0 200 200)) (2, 2) None false false (0, 0) in
  exists r',
    SignatureController.rect
      (signature_controller
         (fst (_drag_move (fst (_start_drag a (30, 30))) (40, 25)))) = Some r'
    /\ rect_eq r' (mkRect (50 + (40 - 30) * 2) (50 + (25 - 30) * 2)
                     (100 + (40 - 30) * 2) (100 + (25 - 30) * 2)).
Proof.
  intro a.
  apply (drag_moves_by_pointer_displacement a (mkRect 50 50 100 100)
           (mkRect 0 0 200 200) (30, 30) (40, 25));
    first [ reflexivity | vm_compute; repeat split; discriminate ].
Defined.

End GuiDrag.
